(** * scraper_tool: the article scraper of [app.py]

    A shallow embedding of the link classifier ([LinkExtractor]), the markup
    reducer ([HTMLTextExtractor]), the crawl ([scrape_articles]) and the
    HTTP endpoint ([scrape]), with the properties the specification states
    about them.

    Python [str] values are modelled as [string]; a character is a code
    point below 256.  Python integers are [Z].  The libraries the program
    calls ([html.parser], [urllib.parse], the HTTP session) are interfaces
    ([HtmlLib], [UrlLib], [HttpLib]): every property holds whatever they
    compute, and module [Fixture] gives one instance of each, with a small
    site, to run the program on.  The exceptions these calls can raise are
    a fourth interface, [Raises]; module [Exc] gives the classifier and
    the crawl with them. *)

From Stdlib Require Import String Ascii List ZArith Lia Bool Arith.
Import ListNotations.
Open Scope list_scope.
Open Scope string_scope.

(** ** Python string primitives *)

Module PyStr.

(** [str.isspace] on one character, which is also what the pattern [\s]
    matches: tab to carriage return, the four separators 28..31, the
    space, NEL (133) and the no-break space (160). *)
Definition isspace (c : ascii) : bool :=
  let n := nat_of_ascii c in
  (((9 <=? n) && (n <=? 13)) || ((28 <=? n) && (n <=? 32))
   || (n =? 133) || (n =? 160))%nat.

(** [str.lower] on one character: A..Z and the capital letters 192..222
    of the upper half, the multiplication sign 215 apart. *)
Definition lower_char (c : ascii) : ascii :=
  let n := nat_of_ascii c in
  if (((65 <=? n) && (n <=? 90))
      || ((192 <=? n) && (n <=? 222) && negb (n =? 215)))%nat
  then ascii_of_nat (n + 32) else c.

Fixpoint lower (s : string) : string :=
  match s with
  | EmptyString => EmptyString
  | String c r => String (lower_char c) (lower r)
  end.

(** Python truthiness of a [str]. *)
Definition nonempty (s : string) : bool :=
  match s with EmptyString => false | String _ _ => true end.

(** [s.startswith(p)] *)
Fixpoint startswith (s p : string) {struct p} : bool :=
  match p with
  | EmptyString => true
  | String a p' =>
      match s with
      | EmptyString => false
      | String b s' => Ascii.eqb a b && startswith s' p'
      end
  end.

(** [s.endswith(p)] *)
Fixpoint endswith (s p : string) : bool :=
  String.eqb s p ||
  match s with
  | EmptyString => false
  | String _ s' => endswith s' p
  end.

(** [s.split(sep)] for a one-character separator; the result is never
    empty, [''.split('/')] being [['']]. *)
Fixpoint split (sep : ascii) (s : string) : list string :=
  match s with
  | EmptyString => [EmptyString]
  | String c r =>
      if Ascii.eqb c sep then EmptyString :: split sep r
      else match split sep r with
           | h :: t => String c h :: t
           | [] => [String c EmptyString]
           end
  end.

(** [sep.join(ls)] *)
Definition join (sep : string) (ls : list string) : string :=
  String.concat sep ls.

(** [s.lstrip()] and [s.rstrip()] over the characters [p] holds of. *)
Fixpoint lstrip_by (p : ascii -> bool) (s : string) : string :=
  match s with
  | EmptyString => EmptyString
  | String c r => if p c then lstrip_by p r else s
  end.

Fixpoint rstrip_by (p : ascii -> bool) (s : string) : string :=
  match s with
  | EmptyString => EmptyString
  | String c r =>
      match rstrip_by p r with
      | EmptyString => if p c then EmptyString else String c EmptyString
      | r' => String c r'
      end
  end.

(** [s.strip()] *)
Definition strip (s : string) : string :=
  rstrip_by isspace (lstrip_by isspace s).

(** [s.rstrip("/")] *)
Definition rstrip_slash (s : string) : string :=
  rstrip_by (Ascii.eqb "/"%char) s.

(** [re.sub(r"\s+", " ", s)]: every maximal run of whitespace becomes one
    space.  [in_run] tells that the previous character was whitespace, so
    that the run it belongs to has been replaced already. *)
Fixpoint sub_ws (in_run : bool) (s : string) : string :=
  match s with
  | EmptyString => EmptyString
  | String c r =>
      if isspace c
      then if in_run then sub_ws true r else String " "%char (sub_ws true r)
      else String c (sub_ws false r)
  end.

(** [x in ls] for a list (or set, or tuple) of strings. *)
Definition mem (x : string) (ls : list string) : bool :=
  existsb (String.eqb x) ls.

End PyStr.

Import PyStr.

(** ** Events of [html.parser.HTMLParser]

    [HTMLParser.feed] calls [handle_starttag], [handle_endtag] and
    [handle_data] on the parser object; a self-closing tag gives a start
    call followed by an end call.  The other handlers (comments,
    declarations, processing instructions) are not overridden by either
    parser class of the program and do nothing.  An attribute without a
    value has the value [None]. *)

Definition attrs_t := list (string * option string).

Inductive event : Type :=
| StartTag (tag : string) (attrs : attrs_t)
| EndTag (tag : string)
| Data (data : string).

(** ** The markup reducer: class [HTMLTextExtractor] *)

Module HTMLTextExtractor.

Definition SKIP_TAGS : list string := ["script"; "style"; "noscript"; "head"].

Record t : Type := mk {
  _pieces : list string;
  _skip_depth : Z
}.

(** [__init__] *)
Definition init : t := {| _pieces := []; _skip_depth := 0 |}.

Definition handle_starttag (self : t) (tag : string) (attrs : attrs_t) : t :=
  if mem (lower tag) SKIP_TAGS
  then {| _pieces := _pieces self; _skip_depth := _skip_depth self + 1 |}
  else self.

Definition handle_endtag (self : t) (tag : string) : t :=
  if mem (lower tag) SKIP_TAGS && (0 <? _skip_depth self)%Z
  then {| _pieces := _pieces self; _skip_depth := _skip_depth self - 1 |}
  else self.

Definition handle_data (self : t) (data : string) : t :=
  if (_skip_depth self =? 0)%Z
  then {| _pieces := (_pieces self ++ [data])%list; _skip_depth := _skip_depth self |}
  else self.

(** The whitespace collapse of [get_text], on the joined text. *)
Definition collapse (raw : string) : string :=
  strip (sub_ws false raw).

Definition get_text (self : t) : string :=
  let raw := join " " (_pieces self) in
  collapse raw.

(** One handler call. *)
Definition handle (self : t) (e : event) : t :=
  match e with
  | StartTag tag attrs => handle_starttag self tag attrs
  | EndTag tag => handle_endtag self tag
  | Data data => handle_data self data
  end.

(** The parser after a sequence of handler calls. *)
Definition run (self : t) (evs : list event) : t :=
  fold_left handle evs self.

(** The parser after each call of the sequence, in turn. *)
Fixpoint states (self : t) (evs : list event) : list t :=
  match evs with
  | [] => []
  | e :: rest => handle self e :: states (handle self e) rest
  end.

End HTMLTextExtractor.

(** ** The libraries, as interfaces *)

(** [HTMLParser.feed]: the handler calls that feeding [html] to a fresh
    parser makes, in order.  The program never calls [close], so text the
    parser still holds back at the end of the input is not part of it.
    When [feed] raises, these are the calls made before (class [Raises]
    below tells when it does). *)
Class HtmlLib : Type := {
  feed_events : string -> list event
}.

(** The fields of [urllib.parse.ParseResult] the program reads. *)
Record ParseResult : Type := mkParseResult {
  scheme : string;
  netloc : string;
  path : string
}.

(** What [urlparse] and [urljoin] return.  When they raise a
    [ValueError] instead is told by class [Raises] below, and module
    [Exc] gives the functions of the program with these exceptions. *)
Class UrlLib : Type := {
  urlparse : string -> ParseResult;
  urljoin : string -> string -> string
}.

(** The [curl_cffi] session: [session_get s url timeout allow_redirects]
    is [s.get(url, timeout=..., allow_redirects=...)], giving the response
    or the message of the exception raised, and the session afterwards
    (its cookies).  [raise_for_status] gives the message of the exception
    it raises, if it raises. *)
Class HttpLib : Type := {
  Session : Type;
  Response : Type;
  new_session : Session;
  session_get : Session -> string -> Z -> bool -> (string + Response) * Session;
  raise_for_status : Response -> option string;
  text : Response -> string
}.

(** [extract_text] *)
Definition extract_text `{HtmlLib} (html : string) : string :=
  let extractor := HTMLTextExtractor.init in
  let extractor := HTMLTextExtractor.run extractor (feed_events html) in
  HTMLTextExtractor.get_text extractor.

(** ** The link classifier: class [LinkExtractor] *)

(** [dict(attrs).get(key)]: the last pair with that key decides; an
    attribute without a value and a missing one both give [None]. *)
Definition attrs_get (attrs : attrs_t) (key : string) : option string :=
  fold_left (fun acc kv => if String.eqb (fst kv) key then snd kv else acc)
            attrs None.

(** Truthiness of an optional string: [None] and [''] are false. *)
Definition truthy_opt (o : option string) : bool :=
  match o with Some s => nonempty s | None => false end.

Module LinkExtractor.

Definition IGNORE_EXTENSIONS : list string :=
  [".png"; ".jpg"; ".jpeg"; ".gif"; ".svg"; ".css"; ".js";
   ".ico"; ".woff"; ".woff2"; ".ttf"; ".eot"; ".pdf"; ".zip";
   ".xml"].

Definition IGNORE_PREFIXES : list string :=
  ["mailto:"; "tel:"; "javascript:"; "#"].

Definition IGNORE_PATH_SEGMENTS : list string :=
  ["rss"; "feed"; "cdn-cgi"; "tag"; "category"; "page"; "author"].

Record t : Type := mk {
  base_url : string;
  base_domain : string;
  base_path : string;
  links : list string
}.

Section WithUrlLib.
Context `{UrlLib}.

(** [__init__] *)
Definition init (base_url : string) : t :=
  let parsed := urlparse base_url in
  let path_parts := filter nonempty (split "/" (path parsed)) in
  {| base_url := base_url;
     base_domain := lower (netloc parsed);
     base_path :=
       if (2 <=? length path_parts)%nat
       then "/" ++ join "/" (removelast path_parts) ++ "/"
       else match path_parts with
            | _ :: _ => "/" ++ join "/" path_parts ++ "/"
            | [] => "/"
            end;
     links := [] |}.

Definition _is_article_link (self : t) (full_url : string) : bool :=
  let parsed := urlparse full_url in
  if negb (String.eqb (lower (netloc parsed)) (base_domain self)) then false
  else
    let path' := rstrip_slash (path parsed) ++ "/" in
    if negb (startswith path' (base_path self))
       || String.eqb path' (base_path self)
    then false
    else
      let segments := filter nonempty (split "/" (path parsed)) in
      if (length segments <? 3)%nat then false
      else
        let lower_segments := map lower segments in
        if existsb (fun s => mem s lower_segments) IGNORE_PATH_SEGMENTS
        then false
        else true.

Definition handle_starttag (self : t) (tag : string) (attrs : attrs_t) : t :=
  if negb (String.eqb (lower tag) "a") then self
  else
    match attrs_get attrs "href" with
    | None => self
    | Some href =>
        if negb (nonempty href) then self
        else if existsb (fun p => startswith href p) IGNORE_PREFIXES then self
        else
          let full := urljoin (base_url self) href in
          let parsed := urlparse full in
          if existsb (fun ext => endswith (lower (path parsed)) ext)
                     IGNORE_EXTENSIONS
          then self
          else
            let full := hd EmptyString (split "#" full) in
            if mem (scheme parsed) ["http"; "https"]
               && _is_article_link self full
               && negb (mem full (links self))
            then {| base_url := base_url self;
                    base_domain := base_domain self;
                    base_path := base_path self;
                    links := (links self ++ [full])%list |}
            else self
    end.

(** One handler call: only start tags are handled by this class. *)
Definition handle (self : t) (e : event) : t :=
  match e with
  | StartTag tag attrs => handle_starttag self tag attrs
  | EndTag _ => self
  | Data _ => self
  end.

Definition run (self : t) (evs : list event) : t :=
  fold_left handle evs self.

(** The assignment [parser.base_path = p]. *)
Definition set_base_path (self : t) (p : string) : t :=
  {| base_url := base_url self;
     base_domain := base_domain self;
     base_path := p;
     links := links self |}.

End WithUrlLib.

End LinkExtractor.

(** [extract_links] *)
Definition extract_links `{HtmlLib} `{UrlLib} (html base_url : string)
  : list string :=
  let parser := LinkExtractor.init base_url in
  let parser := LinkExtractor.run parser (feed_events html) in
  LinkExtractor.links parser.

(** ** JSON values: the dictionaries and lists the program builds and
    receives *)

#[local] Unset Elimination Schemes.

Inductive json : Type :=
| JNull
| JBool (b : bool)
| JInt (n : Z)
| JStr (s : string)
| JList (l : list json)
| JDict (d : list (string * json)).

#[local] Set Elimination Schemes.

(** Python truthiness of such a value. *)
Definition truthy (v : json) : bool :=
  match v with
  | JNull => false
  | JBool b => b
  | JInt n => negb (n =? 0)%Z
  | JStr s => nonempty s
  | JList l => match l with [] => false | _ => true end
  | JDict d => match d with [] => false | _ => true end
  end.

(** [d.get(key)] on the pairs of a dictionary, [None] when missing. *)
Definition dict_get (d : list (string * json)) (key : string) : json :=
  fold_left (fun acc kv => if String.eqb (fst kv) key then snd kv else acc)
            d JNull.

(** The two result records of a crawl and the keys of the debug record. *)
Definition content_record (url content : string) : json :=
  JDict [("url", JStr url); ("content", JStr content)].

Definition error_record (url error : string) : json :=
  JDict [("url", JStr url); ("error", JStr error)].

Definition str_list (l : list string) : json := JList (map JStr l).

(** ** The crawl: a state and exception monad

    The state is the session of the crawl together with the list of the
    URLs requested so far; an exception is the string [str(exc)]. *)

Section Crawl.
Context `{HtmlLib} `{UrlLib} `{HttpLib}.

Record world : Type := mkWorld {
  session : Session;
  requests : list string
}.

Definition M (A : Type) : Type := world -> (string + A) * world.

Definition ret {A} (a : A) : M A := fun w => (inr a, w).

Definition raise {A} (exc : string) : M A := fun w => (inl exc, w).

Definition bind {A B} (c : M A) (k : A -> M B) : M B :=
  fun w => match c w with
           | (inl exc, w') => (inl exc, w')
           | (inr a, w') => k a w'
           end.

(** [try: body except Exception as exc: handler] *)
Definition try_except {A} (body : M A) (handler : string -> M A) : M A :=
  fun w => match body w with
           | (inl exc, w') => handler exc w'
           | (inr a, w') => (inr a, w')
           end.

Local Notation "x <- c ;; k" := (bind c (fun x => k))
  (at level 61, c at next level, right associativity).

(** [_new_session] *)
Definition _new_session : M unit :=
  fun w => (inr tt, {| session := new_session; requests := requests w |}).

(** [fetch_html]; [with_session] is false for the default [session=None],
    where the request goes through a session of its own. *)
Definition fetch_html (url : string) (with_session : bool) : M string :=
  fun w =>
    let s := if with_session then session w else new_session in
    let '(r, s') := session_get s url 30 true in
    let w' := {| session := if with_session then s' else session w;
                 requests := (requests w ++ [url])%list |} in
    match r with
    | inl exc => (inl exc, w')
    | inr resp =>
        match raise_for_status resp with
        | Some exc => (inl exc, w')
        | None => (inr (text resp), w')
        end
    end.

(** The body of the loop of [scrape_articles], on the results so far. *)
Definition scrape_one (link : string) (results : list json) : M (list json) :=
  try_except
    (page_html <- fetch_html link true ;;
     let content := extract_text page_html in
     if nonempty content
     then ret (results ++ [content_record link content])%list
     else ret results)
    (fun exc => ret (results ++ [error_record link exc])%list).

Fixpoint scrape_loop (article_links : list string) (results : list json)
  : M (list json) :=
  match article_links with
  | [] => ret results
  | link :: rest =>
      results' <- scrape_one link results ;;
      scrape_loop rest results'
  end.

(** [scrape_articles] *)
Definition scrape_articles (url : string) (debug : bool) : M (list json) :=
  _ <- _new_session ;;
  index_html <- fetch_html url true ;;
  let article_links := extract_links index_html url in
  if debug then
    let parsed := urlparse url in
    let path_parts := filter nonempty (split "/" (path parsed)) in
    let base_path :=
      if (2 <=? length path_parts)%nat
      then "/" ++ join "/" (removelast path_parts) ++ "/"
      else match path_parts with
           | _ :: _ => "/" ++ join "/" path_parts ++ "/"
           | [] => "/"
           end in
    let raw_parser := LinkExtractor.init url in
    let raw_parser := LinkExtractor.set_base_path raw_parser "/" in
    let raw_parser := LinkExtractor.run raw_parser (feed_events index_html) in
    ret [JDict [("debug", JBool true);
                ("html_length", JInt (Z.of_nat (String.length index_html)));
                ("base_path_used", JStr base_path);
                ("filtered_article_links", str_list article_links);
                ("all_same_domain_links",
                 str_list (LinkExtractor.links raw_parser))]]
  else
    scrape_loop article_links [].

(** ** The endpoint [scrape]

    A request is read through [args.get], [is_json] and
    [get_json(silent=True, force=True)]; the latter is [None] when the
    body does not parse.  The result is the pair given to Flask, and an
    exception of the monad is one that leaves the view function. *)

Record Request : Type := mkRequest {
  args : list (string * string);
  is_json : bool;
  get_json : json
}.

(** [args.get(key)]: the first value of the key. *)
Fixpoint args_get (a : list (string * string)) (key : string)
  : option string :=
  match a with
  | [] => None
  | (k, v) :: rest => if String.eqb k key then Some v else args_get rest key
  end.

(** The method call [v.get("url")] on a parsed body: only a dictionary
    has the method. *)
Definition json_get (v : json) (key : string) : M json :=
  match v with
  | JDict d => ret (dict_get d key)
  | JNull => raise "'NoneType' object has no attribute 'get'"
  | JBool _ => raise "'bool' object has no attribute 'get'"
  | JInt _ => raise "'int' object has no attribute 'get'"
  | JStr _ => raise "'str' object has no attribute 'get'"
  | JList _ => raise "'list' object has no attribute 'get'"
  end.

(** [flask_request.args.get("debug", "").lower() in ("1", "true")] *)
Definition debug_flag (request : Request) : bool :=
  mem (lower (match args_get (args request) "debug" with
              | Some s => s
              | None => EmptyString
              end)) ["1"; "true"].

(** [scrape_articles] on a [url] that is a JSON value other than a string:
    what the session makes of it is the HTTP library's. *)
Variable scrape_articles_untyped : json -> bool -> M (list json).

Definition scrape (request : Request) : M (json * Z) :=
  let url := match args_get (args request) "url" with
             | Some s => JStr s
             | None => JNull
             end in
  url <- (if negb (truthy url) && is_json request
          then json_get (get_json request) "url"
          else ret url) ;;
  if negb (truthy url)
  then ret (JDict [("error", JStr "Missing required parameter: url")], 400%Z)
  else
    try_except
      (let debug := debug_flag request in
       results <- match url with
                  | JStr s => scrape_articles s debug
                  | other => scrape_articles_untyped other debug
                  end ;;
       ret (JList results, 200%Z))
      (fun exc => ret (JDict [("error", JStr exc)], 500%Z)).

End Crawl.

(** ** Reading the program's behaviour

    Functions that describe what the loops above do, used to state the
    properties: which anchors the classifier takes, what each candidate
    fetch gave, and which record it leaves. *)

Section Reading.
Context `{HtmlLib} `{UrlLib} `{HttpLib}.

(** The canonical URL of an href: resolved against the base URL, with
    everything from the first [#] on removed. *)
Definition canonical (base_url href : string) : string :=
  hd EmptyString (split "#" (urljoin base_url href)).

(** The href of an anchor passes every filter of
    [LinkExtractor.handle_starttag] that comes before the test of
    membership in the output list. *)
Definition passes_filters (self : LinkExtractor.t) (href : string) : bool :=
  nonempty href
  && negb (existsb (fun p => startswith href p) LinkExtractor.IGNORE_PREFIXES)
  && negb (existsb
             (fun ext =>
                endswith
                  (lower (path (urlparse
                                  (urljoin (LinkExtractor.base_url self) href))))
                  ext)
             LinkExtractor.IGNORE_EXTENSIONS)
  && mem (scheme (urlparse (urljoin (LinkExtractor.base_url self) href)))
         ["http"; "https"]
  && LinkExtractor._is_article_link
       self (canonical (LinkExtractor.base_url self) href).

(** What each candidate fetch gave, in the order of the fetches: the
    message of the exception or the page. *)
Fixpoint fetch_all (article_links : list string) (w : world)
  : list (string * (string + string)) * world :=
  match article_links with
  | [] => ([], w)
  | link :: rest =>
      let '(r, w') := fetch_html link true w in
      let '(outs, w'') := fetch_all rest w' in
      ((link, r) :: outs, w'')
  end.

(** The records one fetch leaves in the results. *)
Definition records_of (out : string * (string + string)) : list json :=
  match snd out with
  | inl exc => [error_record (fst out) exc]
  | inr page_html =>
      if nonempty (extract_text page_html)
      then [content_record (fst out) (extract_text page_html)]
      else []
  end.


End Reading.


(** A path segment: a string that is not empty and holds no slash. *)
Definition segment (seg : string) : Prop :=
  seg <> EmptyString /\ split "/" seg = [seg].

(** The [url] of a result record, and the two kinds of record. *)
Definition record_url (r : json) : option string :=
  match r with
  | JDict (("url", JStr u) :: _) => Some u
  | _ => None
  end.

Definition is_content_record (r : json) : bool :=
  match r with
  | JDict [("url", JStr _); ("content", JStr c)] => nonempty c
  | _ => false
  end.

Definition is_error_record (r : json) : bool :=
  match r with
  | JDict [("url", JStr _); ("error", JStr _)] => true
  | _ => false
  end.

(** ** The exceptions of the libraries

    The interfaces above give what a library call returns.  The calls can
    also raise: [urlparse] and [urljoin] a [ValueError] on a malformed
    host, [HTMLParser.feed] an [AssertionError] on some declarations.
    [Raises] tells when they do, with the message of the exception;
    [feed_raises html] is the exception of [feed] itself, raised after the
    handler calls [feed_events html].  Module [Exc] gives the functions of
    the program with these exceptions: what they return when no call
    raises is what the functions above return. *)

Class Raises : Type := {
  urlparse_raises : string -> option string;
  urljoin_raises : string -> string -> option string;
  feed_raises : string -> option string
}.

Module Exc.

Section WithExceptions.
Context `{HtmlLib} `{UrlLib} `{HttpLib} `{Raises}.

(** A result or the message of the exception raised. *)
Definition bindE {A B} (c : string + A) (k : A -> string + B) : string + B :=
  match c with
  | inl exc => inl exc
  | inr a => k a
  end.

Local Notation "x <-- c ;; k" := (bindE c (fun x => k))
  (at level 61, c at next level, right associativity).

(** The calls [urlparse(url)] and [urljoin(base, url)]. *)
Definition call_urlparse (url : string) : string + ParseResult :=
  match urlparse_raises url with
  | Some exc => inl exc
  | None => inr (urlparse url)
  end.

Definition call_urljoin (base url : string) : string + string :=
  match urljoin_raises base url with
  | Some exc => inl exc
  | None => inr (urljoin base url)
  end.

(** [LinkExtractor.__init__]: its first call, [urlparse(base_url)], is the
    one that can raise. *)
Definition init (base_url : string) : string + LinkExtractor.t :=
  _ <-- call_urlparse base_url ;;
  inr (LinkExtractor.init base_url).

(** [LinkExtractor._is_article_link]: likewise [urlparse(full_url)]. *)
Definition _is_article_link (self : LinkExtractor.t) (full_url : string)
  : string + bool :=
  _ <-- call_urlparse full_url ;;
  inr (LinkExtractor._is_article_link self full_url).

(** [LinkExtractor.handle_starttag] *)
Definition handle_starttag (self : LinkExtractor.t)
           (tag : string) (attrs : attrs_t) : string + LinkExtractor.t :=
  if negb (String.eqb (lower tag) "a") then inr self
  else
    match attrs_get attrs "href" with
    | None => inr self
    | Some href =>
        if negb (nonempty href) then inr self
        else if existsb (fun p => startswith href p)
                        LinkExtractor.IGNORE_PREFIXES
        then inr self
        else
          full <-- call_urljoin (LinkExtractor.base_url self) href ;;
          parsed <-- call_urlparse full ;;
          if existsb (fun ext => endswith (lower (path parsed)) ext)
                     LinkExtractor.IGNORE_EXTENSIONS
          then inr self
          else
            let full := hd EmptyString (split "#" full) in
            if mem (scheme parsed) ["http"; "https"]
            then
              article <-- _is_article_link self full ;;
              if article && negb (mem full (LinkExtractor.links self))
              then inr {| LinkExtractor.base_url :=
                            LinkExtractor.base_url self;
                          LinkExtractor.base_domain :=
                            LinkExtractor.base_domain self;
                          LinkExtractor.base_path :=
                            LinkExtractor.base_path self;
                          LinkExtractor.links :=
                            (LinkExtractor.links self ++ [full])%list |}
              else inr self
            else inr self
    end.

Definition handle (self : LinkExtractor.t) (e : event)
  : string + LinkExtractor.t :=
  match e with
  | StartTag tag attrs => handle_starttag self tag attrs
  | EndTag _ => inr self
  | Data _ => inr self
  end.

(** The handler calls in turn, up to the first that raises. *)
Fixpoint run (self : LinkExtractor.t) (evs : list event)
  : string + LinkExtractor.t :=
  match evs with
  | [] => inr self
  | e :: rest => self' <-- handle self e ;; run self' rest
  end.

(** [parser.feed(html)] on a link extractor: the handler calls, then the
    exception of [feed] itself if it has one. *)
Definition feed (self : LinkExtractor.t) (html : string)
  : string + LinkExtractor.t :=
  self' <-- run self (feed_events html) ;;
  match feed_raises html with
  | Some exc => inl exc
  | None => inr self'
  end.

(** [extract_links] *)
Definition extract_links (html base_url : string) : string + list string :=
  parser <-- init base_url ;;
  parser <-- feed parser html ;;
  inr (LinkExtractor.links parser).

(** [extract_text]: the handlers of [HTMLTextExtractor] do not raise, so
    the only exception is that of [feed]. *)
Definition extract_text (html : string) : string + string :=
  match feed_raises html with
  | Some exc => inl exc
  | None => inr (extract_text html)
  end.

Local Notation "x <- c ;; k" := (bind c (fun x => k))
  (at level 61, c at next level, right associativity).

(** A result or an exception of pure code, in the monad of the crawl. *)
Definition lift {A} (c : string + A) : M A := fun w => (c, w).

(** The body of the loop of [scrape_articles]. *)
Definition scrape_one (link : string) (results : list json) : M (list json) :=
  try_except
    (page_html <- fetch_html link true ;;
     content <- lift (extract_text page_html) ;;
     if nonempty content
     then ret (results ++ [content_record link content])%list
     else ret results)
    (fun exc => ret (results ++ [error_record link exc])%list).

Fixpoint scrape_loop (article_links : list string) (results : list json)
  : M (list json) :=
  match article_links with
  | [] => ret results
  | link :: rest =>
      results' <- scrape_one link results ;;
      scrape_loop rest results'
  end.

(** [scrape_articles] *)
Definition scrape_articles (url : string) (debug : bool) : M (list json) :=
  _ <- _new_session ;;
  index_html <- fetch_html url true ;;
  article_links <- lift (extract_links index_html url) ;;
  if debug then
    parsed <- lift (call_urlparse url) ;;
    let path_parts := filter nonempty (split "/" (path parsed)) in
    let base_path :=
      if (2 <=? length path_parts)%nat
      then "/" ++ join "/" (removelast path_parts) ++ "/"
      else match path_parts with
           | _ :: _ => "/" ++ join "/" path_parts ++ "/"
           | [] => "/"
           end in
    raw_parser <- lift (init url) ;;
    let raw_parser := LinkExtractor.set_base_path raw_parser "/" in
    raw_parser <- lift (feed raw_parser index_html) ;;
    ret [JDict [("debug", JBool true);
                ("html_length", JInt (Z.of_nat (String.length index_html)));
                ("base_path_used", JStr base_path);
                ("filtered_article_links", str_list article_links);
                ("all_same_domain_links",
                 str_list (LinkExtractor.links raw_parser))]]
  else
    scrape_loop article_links [].

End WithExceptions.

End Exc.

(** The classifier on [base_url] with its scope set to the root: the
    parser the debug branch of [scrape_articles] feeds. *)
Definition root_parser `{UrlLib} (base_url : string) : LinkExtractor.t :=
  {| LinkExtractor.base_url := base_url;
     LinkExtractor.base_domain := lower (netloc (urlparse base_url));
     LinkExtractor.base_path := "/";
     LinkExtractor.links := [] |}.

(** ** A small site to run the program on

    Stand-ins for the three libraries, exact on the inputs used below:
    markup made of text, the references [&lt;] [&gt;] [&amp;], and tags
    [<name k='v' ...>], [</name>] whose attribute values hold no space;
    URLs of the form [scheme://host/path?query#fragment]; hrefs that are
    such a URL, or start with [/], or are a relative file name. *)

Module Fixture.

Fixpoint drop (n : nat) (s : string) : string :=
  match n, s with
  | S k, String _ r => drop k r
  | _, _ => s
  end.

(** The text before the first character [p] holds of, and the rest. *)
Fixpoint break (p : ascii -> bool) (s : string) : string * string :=
  match s with
  | EmptyString => (EmptyString, EmptyString)
  | String c r =>
      if p c then (EmptyString, s)
      else let '(a, b) := break p r in (String c a, b)
  end.

Definition is_one_of (cs : string) (c : ascii) : bool :=
  existsb (Ascii.eqb c) (list_ascii_of_string cs).

(** *** html.parser *)

Fixpoint unescape (skip : nat) (s : string) : string :=
  match s with
  | EmptyString => EmptyString
  | String c r =>
      match skip with
      | S k => unescape k r
      | O =>
          if Ascii.eqb c "&"%char then
            if startswith r "lt;" then String "<"%char (unescape 3 r)
            else if startswith r "gt;" then String ">"%char (unescape 3 r)
            else if startswith r "amp;" then String "&"%char (unescape 4 r)
            else String c (unescape 0 r)
          else String c (unescape 0 r)
      end
  end.

Definition is_quote (c : ascii) : bool :=
  Ascii.eqb c "'"%char || Ascii.eqb c (ascii_of_nat 34).

Definition unquote (v : string) : string :=
  rstrip_by is_quote (lstrip_by is_quote v).

Definition parse_attr (tok : string) : string * option string :=
  let '(k, v) := break (Ascii.eqb "="%char) tok in
  match v with
  | EmptyString => (lower k, None)
  | String _ v' => (lower k, Some (unescape 0 (unquote v')))
  end.

(** The handler calls for the text between [<] and [>]. *)
Definition tag_events (buf : string) : list event :=
  match buf with
  | String "/"%char name => [EndTag (lower (strip name))]
  | _ =>
      let closed := endswith buf "/" in
      let body := rstrip_slash buf in
      match filter nonempty (split " " body) with
      | [] => []
      | name :: toks =>
          StartTag (lower name) (map parse_attr toks)
          :: (if closed then [EndTag (lower name)] else [])
      end
  end.

Definition text_events (buf : string) : list event :=
  if nonempty buf then [Data (unescape 0 buf)] else [].

Fixpoint tokens (in_tag : bool) (buf : string) (s : string) : list event :=
  match s with
  | EmptyString => if in_tag then [] else text_events buf
  | String c r =>
      if in_tag then
        if Ascii.eqb c ">"%char
        then (tag_events buf ++ tokens false EmptyString r)%list
        else tokens true (buf ++ String c EmptyString) r
      else
        if Ascii.eqb c "<"%char
        then if startswith r "![x]>"
             then text_events buf
             else (text_events buf ++ tokens true EmptyString r)%list
        else tokens false (buf ++ String c EmptyString) r
  end.

Definition html_lib : HtmlLib :=
  {| feed_events := tokens false EmptyString |}.

(** *** urllib.parse *)

Fixpoint split_scheme (acc s : string) : option (string * string) :=
  match s with
  | EmptyString => None
  | String c r =>
      if startswith s "://" then Some (acc, drop 3 s)
      else split_scheme (acc ++ String c EmptyString) r
  end.

Definition urlparse_simple (url : string) : ParseResult :=
  match split_scheme EmptyString url with
  | Some (sch, rest) =>
      let '(host, tail) := break (is_one_of "/?#") rest in
      {| scheme := lower sch;
         netloc := host;
         path := fst (break (is_one_of "?#") tail) |}
  | None =>
      {| scheme := EmptyString;
         netloc := EmptyString;
         path := fst (break (is_one_of "?#") url) |}
  end.

(** The path up to and with its last [/]. *)
Fixpoint dirname (p : string) : string :=
  match p with
  | EmptyString => EmptyString
  | String c r =>
      match dirname r with
      | EmptyString => if Ascii.eqb c "/"%char then "/" else EmptyString
      | d => String c d
      end
  end.

Definition urljoin_simple (base url : string) : string :=
  match split_scheme EmptyString url with
  | Some _ => url
  | None =>
      let b := urlparse_simple base in
      let root := scheme b ++ "://" ++ netloc b in
      if startswith url "#" then fst (break (is_one_of "#") base) ++ url
      else if startswith url "/" then root ++ url
      else match dirname (path b) with
           | EmptyString => root ++ "/" ++ url
           | d => root ++ d ++ url
           end
  end.

Definition url_lib : UrlLib :=
  {| urlparse := urlparse_simple; urljoin := urljoin_simple |}.

(** *** Exceptions

    A host with one square bracket only makes [urlparse], and [urljoin]
    on either of its arguments, raise; the marked section [<![x]>] makes
    [feed] raise, and no handler is called for what follows it. *)

Fixpoint contains (s p : string) : bool :=
  startswith s p ||
  match s with
  | EmptyString => false
  | String _ r => contains r p
  end.

Definition bad_host (url : string) : bool :=
  let host := list_ascii_of_string (netloc (urlparse_simple url)) in
  xorb (existsb (Ascii.eqb "["%char) host) (existsb (Ascii.eqb "]"%char) host).

Definition raises_lib : Raises :=
  {| urlparse_raises := fun url =>
       if bad_host url then Some "Invalid IPv6 URL" else None;
     urljoin_raises := fun base url =>
       if bad_host base || bad_host url
       then Some "Invalid IPv6 URL" else None;
     feed_raises := fun html =>
       if contains html "<![x]>"
       then Some "unknown status keyword 'x' in marked section"
       else None |}.

(** *** The site *)

Definition news_url : string :=
  "https://example.com/media-centre/news-releases/".

Definition news_html : string :=
  "<html><head><title>News</title></head><body>" ++
  "<a href='/media-centre/news-releases/2024/story-one'>One</a> " ++
  "<a href='/media-centre/news-releases/2024/story-two#top'>Two</a> " ++
  "<a href='/media-centre/tag/politics'>Politics</a>" ++
  "<a href='#section2'>Down</a>" ++
  "<a href='https://other-domain.com/a/b/c'>Elsewhere</a>" ++
  "<a href='/media-centre/news-releases/2024/story-one#comments'>1</a>" ++
  "<a href='/media-centre/news-releases/2024/story-three'>Three</a>" ++
  "</body></html>".

Definition blog_url : string := "https://example.com/blog/".

Definition blog_html : string :=
  "<a name='top'></a><a href=''>none</a>" ++
  "<a href='/blog/2024/05/first'>First</a>" ++
  "<a href='/blog/2024/05/blank'>Blank</a>".

(** A listing with a link outside its directory, and one with an href
    whose host is malformed. *)
Definition hub_url : string := "https://example.com/hub/news/".

Definition hub_html : string :=
  "<a href='/hub/news/2024/a'>A</a>" ++
  "<a href='/about/team/jane'>Jane</a>" ++
  "<a href='/hub/'>Up</a>".

Definition bad_url : string := "https://example.com/hub/bad/".

Definition bad_html : string :=
  "<a href='/hub/bad/2024/a'>A</a><a href='http://[x/..'>x</a>".

Definition pages : list (string * string) :=
  [ (news_url, news_html);
    ("https://example.com/media-centre/news-releases/2024/story-one",
     "<p>Hello <script>ignored()</script>World</p>");
    ("https://example.com/media-centre/news-releases/2024/story-three",
     "<html><body><h1>Third</h1> <p>text   here</p></body></html>");
    (blog_url, blog_html);
    ("https://example.com/blog/2024/05/first",
     "<p>a &lt;b&gt; tag</p>");
    ("https://example.com/blog/2024/05/blank",
     "<html><head><title>Blank</title></head>" ++
     "<body><script>var x;</script></body></html>");
    (hub_url, hub_html);
    ("https://example.com/hub/news/2024/a", "<p>a</p><![x]><p>b</p>");
    (bad_url, bad_html) ].

Fixpoint lookup (url : string) (ps : list (string * string)) : option string :=
  match ps with
  | [] => None
  | (u, body) :: rest => if String.eqb u url then Some body else lookup url rest
  end.

Record response : Type := mkResponse {
  status_code : Z;
  body : string
}.

(** The session counts the requests it has sent.  A host named [down]
    refuses the connection, a page that is not there answers 404. *)
Definition http_lib : HttpLib :=
  {| Session := nat;
     Response := response;
     new_session := O;
     session_get := fun s url _ _ =>
       if startswith url "https://down/"
       then (inl "Failed to connect to down port 443", S s)
       else match lookup url pages with
            | Some b => (inr {| status_code := 200; body := b |}, S s)
            | None =>
                (inr {| status_code := 404; body := EmptyString |}, S s)
            end;
     raise_for_status := fun r =>
       if (400 <=? status_code r)%Z
       then Some "HTTP Error 404: Not Found" else None;
     text := body |}.

Definition start : @world http_lib :=
  @mkWorld http_lib (7%nat : @Session http_lib) [].

Definition story_one : string :=
  "https://example.com/media-centre/news-releases/2024/story-one".

Definition story_two : string :=
  "https://example.com/media-centre/news-releases/2024/story-two".

Definition story_three : string :=
  "https://example.com/media-centre/news-releases/2024/story-three".

(** The results of the crawl of the news listing and of the blog, and the
    states the two crawls end in. *)
Definition news_results : list json :=
  [content_record story_one "Hello World";
   error_record story_two "HTTP Error 404: Not Found";
   content_record story_three "Third text here"].

Definition after_news : @world http_lib :=
  @mkWorld http_lib (4%nat : @Session http_lib)
    [news_url; story_one; story_two; story_three].

Definition blog_results : list json :=
  [content_record "https://example.com/blog/2024/05/first" "a <b> tag"].

Definition after_blog : @world http_lib :=
  @mkWorld http_lib (3%nat : @Session http_lib)
    [blog_url; "https://example.com/blog/2024/05/first";
     "https://example.com/blog/2024/05/blank"].

(** The state once a crawl has fetched its index page at [url]. *)
Definition after_index (url : string) : @world http_lib :=
  @mkWorld http_lib (1%nat : @Session http_lib) [url].

Definition no_untyped : json -> bool -> @M http_lib (list json) :=
  fun _ _ => @raise http_lib _ "Invalid URL".

(** Two requests for a page of the host that is down: the URL in the
    query string, and in a JSON body. *)
Definition get_down : Request :=
  {| args := [("url", "https://down/x")];
     is_json := false;
     get_json := JNull |}.

Definition post_down : Request :=
  {| args := [];
     is_json := true;
     get_json := JDict [("url", JStr "https://down/x")] |}.

End Fixture.

(** ** Reading events and text

    What an event does to the suppression depth, the text events of a
    sequence, and two readings of a text: its visible characters, and
    whether its whitespace is single spaces between visible characters
    only. *)

(** A start tag of one of the suppressed kinds. *)
Definition opens_skip (e : event) : bool :=
  match e with
  | StartTag tag _ => mem (lower tag) HTMLTextExtractor.SKIP_TAGS
  | _ => false
  end.

(** An end tag of one of the suppressed kinds. *)
Definition closes_skip (e : event) : bool :=
  match e with
  | EndTag tag => mem (lower tag) HTMLTextExtractor.SKIP_TAGS
  | _ => false
  end.

(** The texts of the text events, in order. *)
Fixpoint data_of (evs : list event) : list string :=
  match evs with
  | [] => []
  | Data data :: rest => data :: data_of rest
  | _ :: rest => data_of rest
  end.

(** The characters of a text that are not whitespace. *)
Fixpoint visible (s : string) : string :=
  match s with
  | EmptyString => EmptyString
  | String c r => if isspace c then visible r else String c (visible r)
  end.

(** After a visible character: every whitespace character is a space and
    is followed by a visible character. *)
Fixpoint spaced_inside (s : string) : bool :=
  match s with
  | EmptyString => true
  | String c r =>
      if isspace c
      then Ascii.eqb c " "%char
           && match r with
              | EmptyString => false
              | String d _ => negb (isspace d)
              end
           && spaced_inside r
      else spaced_inside r
  end.

(** A text that is empty, or starts and ends with a visible character and
    holds no whitespace but single spaces. *)
Definition well_spaced (s : string) : bool :=
  match s with
  | EmptyString => true
  | String c r => negb (isspace c) && spaced_inside r
  end.

(** The character occurs in the text. *)
Definition has_char (c : ascii) (s : string) : bool :=
  existsb (Ascii.eqb c) (list_ascii_of_string s).

(** The query string of the request gives a [url] that is not empty. *)
Definition has_query_url (request : Request) : bool :=
  match args_get (args request) "url" with
  | Some s => nonempty s
  | None => false
  end.

(** The request with another body. *)
Definition with_body (request : Request) (announced : bool) (parsed : json)
  : Request :=
  {| args := args request; is_json := announced; get_json := parsed |}.

(** The request with [url] put first in its query string. *)
Definition with_query_url (request : Request) (url : string) : Request :=
  {| args := ("url", url) :: args request;
     is_json := is_json request;
     get_json := get_json request |}.

(** The answer to a request without a URL. *)
Definition missing_url_answer : json * Z :=
  (JDict [("error", JStr "Missing required parameter: url")], 400%Z).

Section Answers.
Context `{HtmlLib} `{UrlLib} `{HttpLib}.

(** The crawl the view function runs for a value of [url]. *)
Definition crawl_of (untyped : json -> bool -> M (list json))
           (request : Request) (url : json) : M (list json) :=
  match url with
  | JStr s => scrape_articles s (debug_flag request)
  | other => untyped other (debug_flag request)
  end.

(** The answer to a crawl: its results, or its exception as a message. *)
Definition answer_of (c : M (list json)) (w : world)
  : (string + json * Z) * world :=
  match c w with
  | (inl exc, w') => (inr (JDict [("error", JStr exc)], 500%Z), w')
  | (inr results, w') => (inr (JList results, 200%Z), w')
  end.

End Answers.

(** * Properties *)

(** ** Strings *)

Section StringFacts.

Lemma isspace_space : isspace " "%char = true.
Proof. reflexivity. Qed.

Lemma nonempty_false (s : string) : nonempty s = false <-> s = EmptyString.
Proof. destruct s; simpl; split; intro E; congruence. Qed.

Lemma startswith_app (p s : string) : startswith (p ++ s) p = true.
Proof.
  induction p as [|a p IH]; simpl; [reflexivity|].
  now rewrite Ascii.eqb_refl.
Qed.

Lemma startswith_inv (s p : string) :
  startswith s p = true -> exists rest, s = p ++ rest.
Proof.
  revert s; induction p as [|a p IH]; intros s E; simpl in *.
  - now exists s.
  - destruct s as [|b s]; [discriminate|].
    apply andb_true_iff in E as [Eab E].
    apply Ascii.eqb_eq in Eab; subst b.
    destruct (IH _ E) as [rest ->]. now exists rest.
Qed.

Lemma endswith_app (s p : string) : endswith (s ++ p) p = true.
Proof.
  induction s as [|c s IH]; cbn [append endswith].
  - destruct p; cbn [endswith]; now rewrite String.eqb_refl.
  - rewrite IH. apply orb_true_r.
Qed.

Lemma rstrip_by_keep (p : ascii -> bool) (c : ascii) (s : string) :
  p c = false -> rstrip_by p (String c s) = String c (rstrip_by p s).
Proof.
  intro E; simpl. destruct (rstrip_by p s); [now rewrite E | reflexivity].
Qed.

Lemma rstrip_by_idem (p : ascii -> bool) (s : string) :
  rstrip_by p (rstrip_by p s) = rstrip_by p s.
Proof.
  induction s as [|c s IH]; simpl; [reflexivity|].
  destruct (rstrip_by p s) as [|d t] eqn:E.
  - destruct (p c) eqn:Ec; simpl; [reflexivity | now rewrite Ec].
  - change (rstrip_by p (String c (String d t))) with
      (match rstrip_by p (String d t) with
       | EmptyString => if p c then EmptyString else String c EmptyString
       | r' => String c r'
       end).
    now rewrite IH.
Qed.

Lemma lstrip_sub_ws_run (s : string) :
  lstrip_by isspace (sub_ws true s) = sub_ws true s.
Proof.
  induction s as [|c s IH]; simpl; [reflexivity|].
  destruct (isspace c) eqn:Ec; [exact IH | simpl; now rewrite Ec].
Qed.

Lemma lstrip_sub_ws (s : string) :
  lstrip_by isspace (sub_ws false s) = sub_ws true s.
Proof.
  destruct s as [|c s]; simpl; [reflexivity|].
  destruct (isspace c) eqn:Ec; simpl.
  - apply lstrip_sub_ws_run.
  - now rewrite Ec.
Qed.

(** Once trailing whitespace is cut, collapsed text is left as it is by
    the substitution. *)
Lemma sub_ws_rstrip_fixed (s : string) (b : bool) :
  sub_ws b (rstrip_by isspace (sub_ws b s)) = rstrip_by isspace (sub_ws b s).
Proof.
  revert b; induction s as [|c s IH]; intro b; simpl; [reflexivity|].
  destruct (isspace c) eqn:Ec.
  - destruct b; [apply IH|].
    simpl. specialize (IH true).
    destruct (rstrip_by isspace (sub_ws true s)) as [|d t] eqn:E;
      simpl; [reflexivity|].
    simpl in IH. now rewrite IH.
  - rewrite (rstrip_by_keep _ _ _ Ec). simpl. rewrite Ec. now rewrite IH.
Qed.

End StringFacts.

(** ** The markup reducer *)

Section ReducerFacts.

Import HTMLTextExtractor.

Lemma collapse_as_rstrip (raw : string) :
  collapse raw = rstrip_by isspace (sub_ws true raw).
Proof. unfold collapse, strip. now rewrite lstrip_sub_ws. Qed.

Lemma collapse_idem (raw : string) : collapse (collapse raw) = collapse raw.
Proof.
  rewrite (collapse_as_rstrip (collapse raw)), (collapse_as_rstrip raw).
  rewrite sub_ws_rstrip_fixed. apply rstrip_by_idem.
Qed.

Lemma handle_depth_nonneg (self : t) (e : event) :
  (0 <= _skip_depth self)%Z -> (0 <= _skip_depth (handle self e))%Z.
Proof.
  intro Hd. destruct e as [tag attrs|tag|data]; simpl.
  - unfold handle_starttag. destruct (mem (lower tag) SKIP_TAGS); simpl; lia.
  - unfold handle_endtag.
    destruct (mem (lower tag) SKIP_TAGS); simpl; [|lia].
    destruct (0 <? _skip_depth self)%Z eqn:E; simpl; [|lia].
    apply Z.ltb_lt in E. lia.
  - unfold handle_data. destruct (_skip_depth self =? 0)%Z; simpl; lia.
Qed.

Lemma states_depth_nonneg (evs : list event) (self : t) :
  (0 <= _skip_depth self)%Z ->
  Forall (fun st => (0 <= _skip_depth st)%Z) (states self evs).
Proof.
  revert self; induction evs as [|e evs IH]; intros self Hd; simpl.
  - constructor.
  - constructor; [|apply IH]; now apply handle_depth_nonneg.
Qed.

Lemma run_depth_nonneg (evs : list event) (self : t) :
  (0 <= _skip_depth self)%Z -> (0 <= _skip_depth (run self evs))%Z.
Proof.
  revert self; induction evs as [|e evs IH]; intros self Hd; [exact Hd|].
  apply IH. now apply handle_depth_nonneg.
Qed.

Lemma last_cons_any {A} (l : list A) (a d : A) :
  last (a :: l) d = last l a.
Proof.
  revert a d; induction l as [|b l IH]; intros a d; [reflexivity|].
  change (last (a :: b :: l) d) with (last (b :: l) d).
  now rewrite (IH b d), (IH b a).
Qed.

Lemma states_last (evs : list event) (self : t) :
  last (states self evs) self = run self evs.
Proof.
  revert self; induction evs as [|e evs IH]; intro self; [reflexivity|].
  unfold run in *. cbn [states fold_left]. rewrite <- IH.
  apply last_cons_any.
Qed.

(** C5: whatever the sequence of start-tag, end-tag and text events, the
    suppression depth is a non-negative integer after every event (and so
    at the end of the run), and an end tag that arrives while the depth is
    zero leaves the parser, its depth and its collected pieces, as it
    was. *)
Theorem skip_depth_never_negative (evs : list event) :
  Forall (fun st => (0 <= _skip_depth st)%Z) (states init evs)
  /\ (0 <= _skip_depth (run init evs))%Z
  /\ (forall (self : t) (tag : string),
         _skip_depth self = 0%Z -> handle_endtag self tag = self).
Proof.
  assert (H0 : (0 <= _skip_depth init)%Z) by (simpl; lia).
  split; [now apply states_depth_nonneg|]. split.
  - now apply run_depth_nonneg.
  - intros self tag Hz. unfold handle_endtag. rewrite Hz.
    now rewrite andb_false_r.
Qed.

Lemma skip_depth_never_negative_witness :
  let self := handle_endtag (handle_starttag init "SCRIPT" []) "script" in
  _skip_depth self = 0%Z /\ handle_endtag self "script" = self.
Proof.
  split; [reflexivity|].
  apply (proj2 (proj2 (skip_depth_never_negative []))). reflexivity.
Defined.

End ReducerFacts.

Section ReduceTwice.
Context `{HtmlLib}.

Import HTMLTextExtractor.

Lemma extract_text_collapsed (html : string) :
  collapse (extract_text html) = extract_text html.
Proof. unfold extract_text, get_text. apply collapse_idem. Qed.




End ReduceTwice.



(** The example of the specification. *)
Example hello_world :
  @extract_text Fixture.html_lib "<p>Hello <script>ignored()</script>World</p>"
  = "Hello World".
Proof. reflexivity. Qed.

(** ** The link classifier *)

Section ClassifierFacts.
Context `{UrlLib}.

Import LinkExtractor.

Lemma attrs_get_from (attrs : attrs_t) (key : string) (acc : option string) :
  ~ In key (map fst attrs) ->
  fold_left (fun acc kv => if String.eqb (fst kv) key then snd kv else acc)
            attrs acc = acc.
Proof.
  revert acc; induction attrs as [|[k v] attrs IH]; intros acc Hn; simpl;
    [reflexivity|].
  simpl in Hn. destruct (String.eqb_spec k key) as [->|Hk].
  - exfalso. apply Hn. now left.
  - apply IH. intro Hi. apply Hn. now right.
Qed.

Lemma attrs_get_missing (attrs : attrs_t) (key : string) :
  ~ In key (map fst attrs) -> attrs_get attrs key = None.
Proof. apply attrs_get_from. Qed.

(** What one start tag does to the parser, in terms of the filters. *)
Lemma handle_starttag_spec (self : t) (tag : string) (attrs : attrs_t) :
  handle_starttag self tag attrs =
  match attrs_get attrs "href" with
  | Some href =>
      if String.eqb (lower tag) "a"
         && passes_filters self href
         && negb (mem (canonical (base_url self) href) (links self))
      then {| base_url := base_url self;
              base_domain := base_domain self;
              base_path := base_path self;
              links := (links self
                        ++ [canonical (base_url self) href])%list |}
      else self
  | None => self
  end.
Proof.
  unfold handle_starttag, passes_filters, canonical.
  destruct (String.eqb (lower tag) "a"); cbn [negb andb];
    [|now destruct (attrs_get attrs "href")].
  destruct (attrs_get attrs "href") as [href|]; [|reflexivity].
  destruct (nonempty href); cbn [negb andb]; [|reflexivity].
  destruct (existsb (fun p => startswith href p) IGNORE_PREFIXES);
    cbn [negb andb]; [reflexivity|].
  destruct (existsb _ IGNORE_EXTENSIONS); cbn [negb andb]; reflexivity.
Qed.

Lemma handle_frame (self : t) (e : event) :
  base_url (handle self e) = base_url self
  /\ base_domain (handle self e) = base_domain self
  /\ base_path (handle self e) = base_path self.
Proof.
  destruct e as [tag attrs| |]; simpl; auto.
  rewrite handle_starttag_spec.
  destruct (attrs_get attrs "href"); auto.
  match goal with |- context [if ?c then _ else _] => destruct c end; auto.
Qed.

Lemma passes_filters_frame (self self' : t) (href : string) :
  base_url self' = base_url self ->
  base_domain self' = base_domain self ->
  base_path self' = base_path self ->
  passes_filters self' href = passes_filters self href.
Proof.
  intros E1 E2 E3.
  unfold passes_filters, _is_article_link. now rewrite E1, E2, E3.
Qed.

Lemma run_frame (evs : list event) (self : t) :
  base_url (run self evs) = base_url self
  /\ base_domain (run self evs) = base_domain self
  /\ base_path (run self evs) = base_path self.
Proof.
  revert self; induction evs as [|e evs IH]; intro self; [auto|].
  unfold run in *. cbn [fold_left].
  destruct (IH (handle self e)) as (-> & -> & ->).
  apply handle_frame.
Qed.

Lemma run_app (evs1 evs2 : list event) (self : t) :
  run self (evs1 ++ evs2) = run (run self evs1) evs2.
Proof. apply fold_left_app. Qed.

Lemma mem_In (x : string) (l : list string) : mem x l = true <-> In x l.
Proof.
  unfold mem. rewrite existsb_exists. split.
  - intros (y & Hy & E). apply String.eqb_eq in E. now subst.
  - intro Hi. exists x. split; [assumption | apply String.eqb_refl].
Qed.

(** A handler call keeps the list without duplicates and only appends,
    and what it appends was not there. *)
Lemma handle_links (self : t) (e : event) :
  exists added,
    links (handle self e) = (links self ++ added)%list
    /\ (NoDup (links self) -> NoDup (links self ++ added))
    /\ forall u, In u added -> ~ In u (links self).
Proof.
  destruct e as [tag attrs| |]; simpl;
    try (exists []; rewrite app_nil_r; repeat split; auto; contradiction).
  rewrite handle_starttag_spec.
  destruct (attrs_get attrs "href") as [href|];
    [|exists []; rewrite app_nil_r; repeat split; auto; contradiction].
  destruct (String.eqb (lower tag) "a" && passes_filters self href);
    cbn [andb];
    [|exists []; rewrite app_nil_r; repeat split; auto; contradiction].
  destruct (mem (canonical (base_url self) href) (links self)) eqn:Em;
    cbn [negb];
    [exists []; rewrite app_nil_r; repeat split; auto; contradiction|].
  assert (Hn : ~ In (canonical (base_url self) href) (links self)).
  { intro Hi. apply mem_In in Hi. congruence. }
  exists [canonical (base_url self) href]. repeat split.
  - intro Hd. apply NoDup_app; [assumption | repeat constructor; auto |].
    intros u Hu [<-|[]]. contradiction.
  - intros u [<-|[]]. assumption.
Qed.

Lemma run_links (evs : list event) (self : t) :
  exists added,
    links (run self evs) = (links self ++ added)%list
    /\ (NoDup (links self) -> NoDup (links self ++ added))
    /\ forall u, In u added -> ~ In u (links self).
Proof.
  revert self; induction evs as [|e evs IH]; intro self.
  - exists []. rewrite app_nil_r. repeat split; auto; contradiction.
  - unfold run in *. cbn [fold_left].
    destruct (handle_links self e) as (a1 & E1 & D1 & N1).
    destruct (IH (handle self e)) as (a2 & E2 & D2 & N2).
    exists (a1 ++ a2)%list. rewrite E2, E1, <- app_assoc. repeat split.
    + intro Hd. rewrite app_assoc. rewrite <- E1. apply D2.
      rewrite E1. now apply D1.
    + intros u Hu. apply in_app_or in Hu as [Hu|Hu]; [now apply N1|].
      intro Hi. apply (N2 u Hu). rewrite E1. apply in_or_app. now left.
Qed.

Lemma extract_links_NoDup `{HtmlLib} (html url : string) :
  NoDup (extract_links html url).
Proof.
  unfold extract_links.
  destruct (run_links (feed_events html) (init url)) as (added & E & D & _).
  rewrite E. apply D. simpl. constructor.
Qed.

End ClassifierFacts.

Section Dedup.
Context `{UrlLib}.

Import LinkExtractor.

Lemma accepted_anchor_listed (self : t) (tag : string) (attrs : attrs_t)
      (href : string) :
  String.eqb (lower tag) "a" = true ->
  attrs_get attrs "href" = Some href ->
  passes_filters self href = true ->
  In (canonical (base_url self) href)
     (links (handle_starttag self tag attrs)).
Proof.
  intros Et Ea Ep. rewrite handle_starttag_spec, Ea, Et, Ep. cbn [andb].
  destruct (mem (canonical (base_url self) href) (links self)) eqn:Em;
    cbn [negb].
  - now apply mem_In.
  - cbn [links]. apply in_or_app. right. now left.
Qed.

Lemma listed_anchor_ignored (self : t) (tag : string) (attrs : attrs_t)
      (href : string) :
  attrs_get attrs "href" = Some href ->
  In (canonical (base_url self) href) (links self) ->
  handle_starttag self tag attrs = self.
Proof.
  intros Ea Hi. rewrite handle_starttag_spec, Ea.
  apply mem_In in Hi. rewrite Hi. cbn [negb].
  now rewrite andb_false_r.
Qed.

Lemma rejected_anchor_ignored (self : t) (tag : string) (attrs : attrs_t)
      (href : string) :
  attrs_get attrs "href" = Some href ->
  passes_filters self href = false ->
  handle_starttag self tag attrs = self.
Proof.
  intros Ea Ep. rewrite handle_starttag_spec, Ea, Ep.
  now rewrite andb_false_r.
Qed.

Lemma NoDup_app_In {A} (l r : list A) (x : A) :
  NoDup (l ++ r) -> In x l -> ~ In x r.
Proof.
  induction l as [|a l IH]; simpl; [contradiction|].
  intros Hd [->|Hi] Hr.
  - inversion Hd as [|? ? Hx _]. apply Hx. apply in_or_app. now right.
  - inversion Hd as [|? ? _ Hd']. now apply (IH Hd' Hi).
Qed.

(** C8: within one classification pass, two anchors whose hrefs resolve to
    the same canonical URL, a candidate link (the href of one of them at
    least passes the filters of the classifier), contribute exactly one
    entry to the output list: the URL is in the list once the second
    anchor is handled, it stays where it is, and the final list holds it
    exactly once.  When the first anchor passes the filters, the entry is
    at the position of this first occurrence: it is in the list once the
    first anchor is handled and the second anchor adds nothing. *)
Theorem same_canonical_one_entry
        (self : t) (evs1 evs2 evs3 : list event)
        (tag1 tag2 : string) (attrs1 attrs2 : attrs_t) (h1 h2 : string) :
  NoDup (links self) ->
  String.eqb (lower tag1) "a" = true ->
  String.eqb (lower tag2) "a" = true ->
  attrs_get attrs1 "href" = Some h1 ->
  attrs_get attrs2 "href" = Some h2 ->
  canonical (base_url self) h1 = canonical (base_url self) h2 ->
  passes_filters self h1 = true \/ passes_filters self h2 = true ->
  let u := canonical (base_url self) h1 in
  let first := run self (evs1 ++ [StartTag tag1 attrs1]) in
  let between := run first evs2 in
  let second := handle_starttag between tag2 attrs2 in
  let final := run self (evs1 ++ StartTag tag1 attrs1
                              :: evs2 ++ StartTag tag2 attrs2 :: evs3) in
  count_occ string_dec (links final) u = 1%nat
  /\ In u (links second)
  /\ (exists rest, links final = (links second ++ rest)%list /\ ~ In u rest)
  /\ (passes_filters self h1 = true ->
      In u (links first)
      /\ second = between
      /\ exists rest,
           links final = (links first ++ rest)%list /\ ~ In u rest).
Proof.
  intros Hnd Et1 Et2 Ea1 Ea2 Ec Hp u first between second final.
  destruct (run_frame (evs1 ++ [StartTag tag1 attrs1]) self)
    as (Eu1 & Ed1 & Eb1). fold first in Eu1, Ed1, Eb1.
  destruct (run_frame evs2 first) as (Eu2 & Ed2 & Eb2).
  fold between in Eu2, Ed2, Eb2.
  assert (Efinal : final = run second evs3).
  { subst final.
    replace (evs1 ++ StartTag tag1 attrs1
                  :: evs2 ++ StartTag tag2 attrs2 :: evs3)%list
      with ((evs1 ++ [StartTag tag1 attrs1])
              ++ evs2 ++ [StartTag tag2 attrs2] ++ evs3)%list
      by (rewrite <- !app_assoc; reflexivity).
    rewrite (run_app (evs1 ++ [StartTag tag1 attrs1])), (run_app evs2).
    now rewrite (run_app [StartTag tag2 attrs2]). }
  assert (Hnd_final : NoDup (links final)).
  { destruct (run_links (evs1 ++ StartTag tag1 attrs1
                              :: evs2 ++ StartTag tag2 attrs2 :: evs3) self)
      as (a & E & D & _).
    subst final. rewrite E. now apply D. }
  destruct (run_links evs2 first) as (a2 & E2 & _ & _). fold between in E2.
  destruct (handle_links between (StartTag tag2 attrs2))
    as (a2' & E2' & _ & _).
  change (handle between (StartTag tag2 attrs2)) with second in E2'.
  destruct (run_links evs3 second) as (a3 & E3 & _ & _).
  rewrite <- Efinal in E3.
  assert (Hfirst : passes_filters self h1 = true -> In u (links first)).
  { intro Ep. subst first u. rewrite run_app. cbn [run fold_left handle].
    destruct (run_frame evs1 self) as (Eu & Ed & Eb).
    fold (run self evs1). rewrite <- Eu.
    apply accepted_anchor_listed; try assumption.
    rewrite (passes_filters_frame self (run self evs1)); assumption. }
  assert (Hsecond : In u (links second)).
  { destruct Hp as [Ep|Ep].
    - rewrite E2', E2. apply in_or_app. left. apply in_or_app. left. auto.
    - subst u. rewrite Ec. rewrite <- Eu1, <- Eu2.
      apply accepted_anchor_listed; try assumption.
      rewrite (passes_filters_frame self between); congruence. }
  repeat split.
  - apply NoDup_count_occ'; [exact Hnd_final|].
    rewrite E3. apply in_or_app. now left.
  - exact Hsecond.
  - exists a3. split; [exact E3|].
    rewrite E3 in Hnd_final. now apply (NoDup_app_In _ _ _ Hnd_final).
  - auto.
  - apply (listed_anchor_ignored _ _ _ h2 Ea2).
    rewrite Eu2, Eu1, <- Ec. fold u. rewrite E2. apply in_or_app. left. auto.
  - exists (a2 ++ a2' ++ a3)%list.
    assert (El : links final = (links first ++ a2 ++ a2' ++ a3)%list)
      by (rewrite E3, E2', E2, <- !app_assoc; reflexivity).
    split; [exact El|].
    rewrite El in Hnd_final. apply (NoDup_app_In _ _ _ Hnd_final). auto.
Qed.

End Dedup.

Lemma same_canonical_one_entry_witness :
  let self := @LinkExtractor.init Fixture.url_lib Fixture.news_url in
  let h1 := "/media-centre/news-releases/2024/story-one" in
  let h2 := "/media-centre/news-releases/2024/story-one#comments" in
  let evs := [StartTag "a" [("href", Some h1)]; Data "One"; EndTag "a";
              StartTag "a" [("href", Some h2)]; Data "1"; EndTag "a"] in
  let page := @LinkExtractor.init Fixture.url_lib
                "https://example.com/a/b/c" in
  let evs' := [StartTag "a" [("href", Some "#top")]; Data "Up"; EndTag "a";
               StartTag "a" [("href", Some "/a/b/d")];
               StartTag "a" [("href", Some "/a/b/c")]] in
  (@passes_filters Fixture.url_lib self h1 = true
   /\ @canonical Fixture.url_lib Fixture.news_url h1
      = @canonical Fixture.url_lib Fixture.news_url h2
   /\ count_occ string_dec
        (LinkExtractor.links (@LinkExtractor.run Fixture.url_lib self evs))
        "https://example.com/media-centre/news-releases/2024/story-one"
      = 1%nat)
  /\ (@passes_filters Fixture.url_lib page "#top" = false
      /\ @passes_filters Fixture.url_lib page "/a/b/c" = true
      /\ @canonical Fixture.url_lib "https://example.com/a/b/c" "#top"
         = @canonical Fixture.url_lib "https://example.com/a/b/c" "/a/b/c"
      /\ count_occ string_dec
           (LinkExtractor.links
              (@LinkExtractor.run Fixture.url_lib page evs'))
           "https://example.com/a/b/c"
         = 1%nat).
Proof.
  intros self h1 h2 evs page evs'. split.
  - assert (Ep : @passes_filters Fixture.url_lib self h1 = true)
      by (vm_compute; reflexivity).
    assert (Ec : @canonical Fixture.url_lib (LinkExtractor.base_url self) h1
                 = @canonical Fixture.url_lib (LinkExtractor.base_url self) h2)
      by (vm_compute; reflexivity).
    split; [exact Ep|]. split; [exact Ec|].
    pose proof (@same_canonical_one_entry Fixture.url_lib self
                  [] [Data "One"; EndTag "a"] [Data "1"; EndTag "a"]
                  "a" "a" [("href", Some h1)] [("href", Some h2)] h1 h2
                  (NoDup_nil string) eq_refl eq_refl eq_refl eq_refl Ec
                  (or_introl Ep)) as Hx.
    destruct Hx as [Hc _]. vm_compute in Hc |- *. exact Hc.
  - assert (Er : @passes_filters Fixture.url_lib page "#top" = false)
      by (vm_compute; reflexivity).
    assert (Ep : @passes_filters Fixture.url_lib page "/a/b/c" = true)
      by (vm_compute; reflexivity).
    assert (Ec : @canonical Fixture.url_lib (LinkExtractor.base_url page)
                   "#top"
                 = @canonical Fixture.url_lib (LinkExtractor.base_url page)
                     "/a/b/c")
      by (vm_compute; reflexivity).
    split; [exact Er|]. split; [exact Ep|]. split; [exact Ec|].
    pose proof (@same_canonical_one_entry Fixture.url_lib page
                  []
                  [Data "Up"; EndTag "a";
                   StartTag "a" [("href", Some "/a/b/d")]]
                  []
                  "a" "a" [("href", Some "#top")] [("href", Some "/a/b/c")]
                  "#top" "/a/b/c"
                  (NoDup_nil string) eq_refl eq_refl eq_refl eq_refl Ec
                  (or_intror Ep)) as Hx.
    destruct Hx as [Hc _]. vm_compute in Hc |- *. exact Hc.
Defined.

(** Two anchors to a page the classifier rejects, here a tag page, leave
    no entry in the output list. *)
Lemma rejected_pair_leaves_no_entry :
  let page := "<a href='/media-centre/tag/politics'>a</a>" ++
              "<a href='/media-centre/tag/politics#top'>b</a>" in
  let u := "https://example.com/media-centre/tag/politics" in
  @canonical Fixture.url_lib Fixture.news_url "/media-centre/tag/politics" = u
  /\ @canonical Fixture.url_lib Fixture.news_url
       "/media-centre/tag/politics#top" = u
  /\ @extract_links Fixture.html_lib Fixture.url_lib page Fixture.news_url
     = []
  /\ count_occ string_dec
       (@extract_links Fixture.html_lib Fixture.url_lib page Fixture.news_url)
       u <> 1%nat.
Proof.
  cbv zeta. repeat split; try reflexivity.
  vm_compute. discriminate.
Qed.

Section AnchorsAndPrefix.
Context `{UrlLib}.

Import LinkExtractor.

(** C10: an anchor tag without an href attribute, or whose href attribute
    is the empty string, leaves the classifier as it was, its output list
    included; nothing is resolved or filtered for it. *)
Theorem anchor_without_href_skipped
        (self : t) (tag : string) (attrs : attrs_t) :
  ~ In "href" (map fst attrs) \/ attrs_get attrs "href" = Some EmptyString ->
  handle_starttag self tag attrs = self
  /\ links (handle_starttag self tag attrs) = links self.
Proof.
  intro Hh.
  assert (E : handle_starttag self tag attrs = self).
  { unfold handle_starttag.
    destruct (negb (String.eqb (lower tag) "a")); [reflexivity|].
    destruct Hh as [Hn|He].
    - now rewrite (attrs_get_missing _ _ Hn).
    - now rewrite He. }
  now rewrite E.
Qed.

(** C7: the path prefix of the classifier is computed from the non-empty
    segments of the path of the base URL: [/] when there is none,
    [/segment/] when there is one, and [/] followed by all segments but
    the last, joined by [/], and a closing [/] when there are two or
    more.  It always ends with a slash, and it is compared character by
    character, letter case included: a link is an article link only if
    its path, closed by one slash, is the prefix followed by something,
    and a path that does not start with the prefix as written is
    rejected. *)
Theorem base_path_from_segments (base_url : string) :
  let parts := filter nonempty (split "/" (path (urlparse base_url))) in
  let prefix := base_path (init base_url) in
  prefix = match parts with
           | [] => "/"
           | [segment] => "/" ++ segment ++ "/"
           | _ :: _ :: _ => "/" ++ join "/" (removelast parts) ++ "/"
           end
  /\ endswith prefix "/" = true
  /\ (forall full : string,
         _is_article_link (init base_url) full = true ->
         exists rest,
           rest <> EmptyString
           /\ rstrip_slash (path (urlparse full)) ++ "/" = prefix ++ rest)
  /\ (forall full : string,
         startswith (rstrip_slash (path (urlparse full)) ++ "/") prefix
         = false ->
         _is_article_link (init base_url) full = false).
Proof.
  intros parts prefix.
  assert (E : prefix = match parts with
                       | [] => "/"
                       | [segment] => "/" ++ segment ++ "/"
                       | _ :: _ :: _ =>
                           "/" ++ join "/" (removelast parts) ++ "/"
                       end).
  { subst prefix parts. unfold init. cbn [base_path].
    destruct (filter nonempty (split "/" (path (urlparse base_url))))
      as [|a [|b l]]; reflexivity. }
  split; [exact E|]. split; [|split].
  - rewrite E. destruct parts as [|a [|b l]]; [reflexivity| |].
    + change ("/" ++ a ++ "/") with (String "/"%char (a ++ "/")).
      cbn [endswith]. rewrite endswith_app. apply orb_true_r.
    + change ("/" ++ join "/" (removelast (a :: b :: l)) ++ "/")
        with (String "/"%char (join "/" (removelast (a :: b :: l)) ++ "/")).
      cbn [endswith]. rewrite endswith_app. apply orb_true_r.
  - intros full Ha. unfold _is_article_link in Ha.
    destruct (negb (String.eqb (lower (netloc (urlparse full)))
                               (base_domain (init base_url))));
      [discriminate|].
    fold prefix in Ha.
    destruct (startswith (rstrip_slash (path (urlparse full)) ++ "/") prefix)
      eqn:Es; cbn [negb orb] in Ha; [|discriminate].
    destruct (String.eqb (rstrip_slash (path (urlparse full)) ++ "/") prefix)
      eqn:Ee; [discriminate|].
    destruct (startswith_inv _ _ Es) as [rest Er].
    exists rest. split; [|exact Er].
    intros ->. apply String.eqb_neq in Ee. apply Ee.
    rewrite Er. clear. induction prefix; simpl; congruence.
  - intros full Es. unfold _is_article_link. fold prefix. rewrite Es.
    cbn [negb orb]. now destruct (negb _).
Qed.

End AnchorsAndPrefix.

Lemma anchor_without_href_skipped_witness :
  let self := @LinkExtractor.init Fixture.url_lib Fixture.blog_url in
  ~ In "href" (map fst [("name", Some "top")])
  /\ @LinkExtractor.handle_starttag Fixture.url_lib self "a"
       [("name", Some "top")] = self
  /\ @LinkExtractor.handle_starttag Fixture.url_lib self "a"
       [("href", Some EmptyString)] = self.
Proof.
  intro self.
  assert (Hn : ~ In "href" (map fst [("name", Some "top")])).
  { simpl. intros [E|[]]. discriminate E. }
  split; [exact Hn|]. split.
  - apply (@anchor_without_href_skipped Fixture.url_lib self "a"
             [("name", Some "top")]). now left.
  - apply (@anchor_without_href_skipped Fixture.url_lib self "a"
             [("href", Some EmptyString)]). now right.
Defined.

Lemma base_path_from_segments_witness :
  let base := "https://example.com/News/index.html" in
  let self := @LinkExtractor.init Fixture.url_lib base in
  LinkExtractor.base_path self = "/News/"
  /\ @LinkExtractor._is_article_link Fixture.url_lib self
       "https://example.com/News/2024/05/story" = true
  /\ startswith
       (rstrip_slash
          (path (@urlparse Fixture.url_lib
                   "https://example.com/news/2024/05/story")) ++ "/")
       (LinkExtractor.base_path self) = false
  /\ @LinkExtractor._is_article_link Fixture.url_lib self
       "https://example.com/news/2024/05/story" = false.
Proof.
  intros base self.
  split; [reflexivity|]. split; [reflexivity|]. split; [reflexivity|].
  apply (proj2 (proj2 (proj2
           (@base_path_from_segments Fixture.url_lib base)))).
  reflexivity.
Defined.

(** The examples of the specification, on the site. *)
Example parent_prefix_of_listing :
  LinkExtractor.base_path
    (@LinkExtractor.init Fixture.url_lib Fixture.news_url)
  = "/media-centre/".
Proof. reflexivity. Qed.

Example classify_listing :
  @extract_links Fixture.html_lib Fixture.url_lib
    Fixture.news_html Fixture.news_url
  = ["https://example.com/media-centre/news-releases/2024/story-one";
     "https://example.com/media-centre/news-releases/2024/story-two";
     "https://example.com/media-centre/news-releases/2024/story-three"].
Proof. reflexivity. Qed.

(** ** The crawl *)

Section CrawlFacts.
Context `{HtmlLib} `{UrlLib} `{HttpLib}.

Lemma fetch_html_requests (url : string) (b : bool) (w : world) :
  requests (snd (fetch_html url b w)) = (requests w ++ [url])%list.
Proof.
  unfold fetch_html.
  destruct (session_get _ url 30 true) as [[exc|resp] s']; [reflexivity|].
  destruct (raise_for_status resp); reflexivity.
Qed.

Lemma scrape_one_spec (link : string) (results : list json) (w : world) :
  scrape_one link results w
  = (inr (results ++ records_of (link, fst (fetch_html link true w)))%list,
     snd (fetch_html link true w)).
Proof.
  unfold scrape_one, try_except, bind, records_of, ret.
  destruct (fetch_html link true w) as [[exc|page] w']; cbn [fst snd].
  - reflexivity.
  - destruct (nonempty (extract_text page)); [reflexivity|].
    now rewrite app_nil_r.
Qed.

Lemma scrape_loop_spec (article_links : list string) :
  forall (results : list json) (w : world),
    scrape_loop article_links results w
    = (inr (results
            ++ flat_map records_of (fst (fetch_all article_links w)))%list,
       snd (fetch_all article_links w)).
Proof.
  induction article_links as [|link rest IH]; intros results w.
  - cbn. now rewrite app_nil_r.
  - cbn [scrape_loop fetch_all]. unfold bind at 1.
    rewrite scrape_one_spec.
    destruct (fetch_html link true w) as [r w'] eqn:Ef. cbn [fst snd].
    rewrite IH.
    destruct (fetch_all rest w') as [outs w''] eqn:Ea. cbn [fst snd flat_map].
    now rewrite <- app_assoc.
Qed.

Lemma fetch_all_links (article_links : list string) :
  forall w : world,
    map fst (fst (fetch_all article_links w)) = article_links
    /\ requests (snd (fetch_all article_links w))
       = (requests w ++ article_links)%list.
Proof.
  induction article_links as [|link rest IH]; intro w.
  - cbn. now rewrite app_nil_r.
  - cbn [fetch_all].
    pose proof (fetch_html_requests link true w) as Er.
    destruct (fetch_html link true w) as [r w'] eqn:Ef. cbn [snd] in Er.
    destruct (IH w') as [Em Eq].
    destruct (fetch_all rest w') as [outs w''] eqn:Ea. cbn [fst snd] in *.
    cbn [map fst]. rewrite Em, Eq, Er, <- app_assoc. now split.
Qed.

Lemma record_url_error (link exc : string) :
  record_url (error_record link exc) = Some link
  /\ is_error_record (error_record link exc) = true
  /\ is_content_record (error_record link exc) = false.
Proof. repeat split. Qed.

Lemma record_url_content (link content : string) :
  record_url (content_record link content) = Some link
  /\ is_error_record (content_record link content) = false
  /\ is_content_record (content_record link content) = nonempty content.
Proof. repeat split. Qed.



Lemma records_of_url (o : string * (string + string)) (r : json) :
  In r (records_of o) -> record_url r = Some (fst o).
Proof.
  unfold records_of. destruct o as [link [exc|page]]; cbn [fst snd].
  - intros [<-|[]]. reflexivity.
  - destruct (nonempty (extract_text page)); [|contradiction].
    intros [<-|[]]. reflexivity.
Qed.


(** The crawl in normal mode, once the index page is there. *)
Lemma scrape_articles_normal (url : string) (w w1 : world)
      (index_html : string) :
  fetch_html url true (snd (_new_session w)) = (inr index_html, w1) ->
  scrape_articles url false w
  = (inr (flat_map records_of
            (fst (fetch_all (extract_links index_html url) w1))),
     snd (fetch_all (extract_links index_html url) w1)).
Proof.
  intro Ef. unfold scrape_articles, bind.
  change (_new_session w) with (inr tt : string + unit, snd (_new_session w)).
  cbn iota beta. rewrite Ef. cbn iota beta.
  now rewrite scrape_loop_spec.
Qed.

End CrawlFacts.

Section CrawlProperties.
Context `{HtmlLib} `{UrlLib} `{HttpLib}.


(** C2: when the fetch of the index page fails, the crawl, in either
    mode, returns no list of records: it ends with the exception of that
    fetch, after that one request, and the endpoint answers with the one
    error message. *)
Theorem index_failure_is_fatal
        (url : string) (debug : bool) (w w1 : world) (exc : string) :
  fetch_html url true (snd (_new_session w)) = (inl exc, w1) ->
  scrape_articles url debug w = (inl exc, w1)
  /\ requests w1 = (requests w ++ [url])%list
  /\ (forall untyped request,
         args_get (args request) "url" = Some url ->
         nonempty url = true ->
         scrape untyped request w
         = (inr (JDict [("error", JStr exc)], 500%Z), w1)).
Proof.
  intro Ef.
  assert (Es : forall d, scrape_articles url d w = (inl exc, w1)).
  { intro d. unfold scrape_articles, bind.
    change (_new_session w)
      with (inr tt : string + unit, snd (_new_session w)).
    cbn iota beta. now rewrite Ef. }
  split; [apply Es|]. split.
  - pose proof (fetch_html_requests url true (snd (_new_session w))) as Er.
    now rewrite Ef in Er.
  - intros untyped request Ea En.
    unfold scrape. rewrite Ea. cbn [truthy]. rewrite En. cbn [negb andb].
    unfold bind at 1, ret at 1. cbn [truthy]. rewrite En. cbn [negb].
    unfold try_except, bind. now rewrite Es.
Qed.


End CrawlProperties.

(** ** The crawl on the site *)

Module OnSite.

Import Fixture.


Lemma index_failure_is_fatal_witness :
  @fetch_html http_lib "https://down/x" true
    (snd (@_new_session http_lib start))
  = (inl "Failed to connect to down port 443", after_index "https://down/x")
  /\ @scrape_articles html_lib url_lib http_lib "https://down/x" false start
     = (inl "Failed to connect to down port 443",
        after_index "https://down/x").
Proof.
  split; [reflexivity|].
  apply (@index_failure_is_fatal html_lib url_lib http_lib
           "https://down/x" false start (after_index "https://down/x")
           "Failed to connect to down port 443").
  reflexivity.
Defined.


End OnSite.

(** ** The endpoint *)

Section EndpointFacts.
Context `{HtmlLib} `{UrlLib} `{HttpLib}.
Variable untyped : json -> bool -> M (list json).

(** A request without a URL, whose body is not announced as JSON, gets
    the answer 400 with an error message. *)
Lemma missing_url_is_client_error (request : Request) (w : world) :
  args_get (args request) "url" = None ->
  is_json request = false ->
  scrape untyped request w
  = (inr (JDict [("error", JStr "Missing required parameter: url")], 400%Z),
     w).
Proof.
  intros Ea Ej. unfold scrape. rewrite Ea, Ej. reflexivity.
Qed.

(** So does one whose JSON body is an object without a [url]. *)
Lemma missing_url_in_body_is_client_error
      (request : Request) (w : world) (d : list (string * json)) :
  args_get (args request) "url" = None ->
  get_json request = JDict d ->
  truthy (dict_get d "url") = false ->
  scrape untyped request w
  = (inr (JDict [("error", JStr "Missing required parameter: url")], 400%Z),
     w).
Proof.
  intros Ea Eb Et. unfold scrape. rewrite Ea, Eb.
  change (truthy JNull) with false. cbn [negb andb].
  destruct (is_json request); unfold json_get, bind, ret.
  - cbn beta iota. now rewrite Et.
  - reflexivity.
Qed.

(** An exception of the crawl is answered with 500 and its message. *)
Lemma crawl_exception_is_server_error
      (request : Request) (w w1 : world) (url exc : string) :
  args_get (args request) "url" = Some url ->
  nonempty url = true ->
  scrape_articles url (debug_flag request) w = (inl exc, w1) ->
  scrape untyped request w = (inr (JDict [("error", JStr exc)], 500%Z), w1).
Proof.
  intros Ea En Es. unfold scrape. rewrite Ea. cbn [truthy]. rewrite En.
  cbn [negb andb]. unfold bind at 1, ret at 1. cbn [truthy]. rewrite En.
  cbn [negb]. unfold try_except, bind. now rewrite Es.
Qed.

(** The results of a crawl are answered with 200. *)
Lemma crawl_results_are_returned
      (request : Request) (w w1 : world) (url : string)
      (results : list json) :
  args_get (args request) "url" = Some url ->
  nonempty url = true ->
  scrape_articles url (debug_flag request) w = (inr results, w1) ->
  scrape untyped request w = (inr (JList results, 200%Z), w1).
Proof.
  intros Ea En Es. unfold scrape. rewrite Ea. cbn [truthy]. rewrite En.
  cbn [negb andb]. unfold bind at 1, ret at 1. cbn [truthy]. rewrite En.
  cbn [negb]. unfold try_except, bind. now rewrite Es.
Qed.

(** C9 does not hold of the code: a request that announces a JSON body,
    gives no [url] in the query string and whose body does not parse (or
    is [null]) makes [get_json] return [None]; the call of [get] on it
    raises outside the [try] of the view function, so the exception
    leaves [scrape] instead of becoming an error message. *)
Theorem unparsed_body_raises_unhandled (w : world) :
  scrape untyped {| args := []; is_json := true; get_json := JNull |} w
  = (inl "'NoneType' object has no attribute 'get'", w).
Proof. reflexivity. Qed.

(** The same with a body that is a JSON list. *)
Lemma list_body_raises_unhandled (w : world) (l : list json) :
  scrape untyped {| args := []; is_json := true; get_json := JList l |} w
  = (inl "'list' object has no attribute 'get'", w).
Proof. reflexivity. Qed.

End EndpointFacts.

(** ** Paths and their segments *)

Section Segments.

Lemma append_assoc (a b c : string) : (a ++ b) ++ c = a ++ b ++ c.
Proof. induction a as [|x a IH]; simpl; [reflexivity | now rewrite IH]. Qed.

Lemma split_not_nil (sep : ascii) (s : string) : split sep s <> [].
Proof.
  destruct s as [|c r]; simpl; [discriminate|].
  destruct (Ascii.eqb c sep); [discriminate|].
  destruct (split sep r); discriminate.
Qed.

Lemma split_app_sep (sep : ascii) (a b : string) :
  split sep a = [a] ->
  split sep (a ++ String sep b) = a :: split sep b.
Proof.
  induction a as [|c a IH]; intro Ha.
  - simpl. now rewrite Ascii.eqb_refl.
  - simpl in Ha |- *. destruct (Ascii.eqb c sep).
    + pose proof (split_not_nil sep a) as Hn.
      destruct (split sep a); [contradiction | discriminate].
    + pose proof (split_not_nil sep a) as Hn.
      destruct (split sep a) as [|h t] eqn:Es; [contradiction|].
      inversion Ha; subst. now rewrite IH.
Qed.

Lemma split_join (segs : list string) :
  segs <> [] -> Forall segment segs ->
  split "/" (join "/" segs) = segs
  /\ split "/" (join "/" segs ++ "/") = (segs ++ [EmptyString])%list.
Proof.
  induction segs as [|a [|b l] IH]; intros Hn Hs; [contradiction| |].
  - inversion Hs as [|? ? [_ Ha] _]; subst. cbn [join String.concat].
    split; [exact Ha|].
    change (a ++ "/") with (a ++ String "/"%char EmptyString).
    now rewrite split_app_sep.
  - inversion Hs as [|? ? [_ Ha] Hs']; subst.
    destruct IH as [I1 I2]; [discriminate | assumption |].
    change (join "/" (a :: b :: l))
      with (a ++ String "/"%char (join "/" (b :: l))).
    split.
    + rewrite split_app_sep by assumption. now rewrite I1.
    + rewrite append_assoc.
      change (String "/"%char (join "/" (b :: l)) ++ "/")
        with (String "/"%char (join "/" (b :: l) ++ "/")).
      rewrite split_app_sep by assumption. now rewrite I2.
Qed.

Lemma filter_segments (segs : list string) :
  Forall segment segs -> filter nonempty segs = segs.
Proof.
  induction 1 as [|a l [Ha _] _ IH]; [reflexivity|].
  simpl. destruct a; [contradiction|]. simpl. now rewrite IH.
Qed.

(** The non-empty segments of a path written from its segments, with or
    without a closing slash, are these segments. *)
Lemma path_segments (segs : list string) :
  segs <> [] -> Forall segment segs ->
  filter nonempty (split "/" ("/" ++ join "/" segs)) = segs
  /\ filter nonempty (split "/" ("/" ++ join "/" segs ++ "/")) = segs.
Proof.
  intros Hn Hs. destruct (split_join segs Hn Hs) as [E1 E2].
  change ("/" ++ join "/" segs) with (String "/"%char (join "/" segs)).
  change ("/" ++ join "/" segs ++ "/")
    with (String "/"%char (join "/" segs ++ "/")).
  cbn [split]. rewrite Ascii.eqb_refl, E1, E2. cbn [filter nonempty].
  rewrite filter_app, (filter_segments _ Hs). cbn [filter nonempty].
  now rewrite app_nil_r.
Qed.

(** The prefix of a listing page is the directory above it. *)
Lemma base_path_of_listing `{UrlLib} (base_url : string)
      (dirs : list string) (page : string) :
  Forall segment (dirs ++ [page]) ->
  dirs <> [] ->
  path (urlparse base_url) = "/" ++ join "/" (dirs ++ [page]) ++ "/" ->
  LinkExtractor.base_path (LinkExtractor.init base_url)
  = "/" ++ join "/" dirs ++ "/".
Proof.
  intros Hs Hd Ep. unfold LinkExtractor.init. cbn [LinkExtractor.base_path].
  rewrite Ep.
  destruct (path_segments (dirs ++ [page])) as [_ E];
    [now destruct dirs | assumption |].
  rewrite E, removelast_last.
  destruct dirs as [|d dirs]; [contradiction|].
  destruct dirs; reflexivity.
Qed.

End Segments.

(** * Further properties *)

(** ** The markup reducer: suppressed and visible text *)

Section Suppression.

Import HTMLTextExtractor.

Lemma lower_char_idem (c : ascii) : lower_char (lower_char c) = lower_char c.
Proof.
  destruct c as [[] [] [] [] [] [] [] []]; reflexivity.
Qed.

Lemma lower_idem (s : string) : lower (lower s) = lower s.
Proof.
  induction s as [|c s IH]; simpl; [reflexivity|].
  now rewrite lower_char_idem, IH.
Qed.

Lemma self_eta (self : t) :
  {| _pieces := _pieces self; _skip_depth := _skip_depth self |} = self.
Proof. now destruct self. Qed.

(** Inside a suppressed element an event that is not an end tag of a
    suppressed kind keeps the pieces and does not lower the depth. *)
Lemma handle_suppressed (self : t) (e : event) :
  (0 < _skip_depth self)%Z -> closes_skip e = false ->
  _pieces (handle self e) = _pieces self
  /\ (_skip_depth self <= _skip_depth (handle self e))%Z.
Proof.
  intros Hd Hc. destruct e as [tag attrs|tag|data];
      cbn [handle opens_skip closes_skip] in *.
  - unfold handle_starttag.
    destruct (mem (lower tag) SKIP_TAGS); cbn [_pieces _skip_depth];
      split; auto; lia.
  - unfold handle_endtag. rewrite Hc. cbn [andb]. split; auto; lia.
  - unfold handle_data.
    destruct (Z.eqb_spec (_skip_depth self) 0); [lia|]. split; auto; lia.
Qed.

(** X1: once the depth is positive, as after the start tag of a script,
    style, noscript or head element, no text is collected until an end
    tag of one of these kinds arrives: the text that follows an element
    that is never closed is lost. *)
Theorem text_after_unclosed_skip_is_lost (self : t) (evs : list event) :
  (0 < _skip_depth self)%Z ->
  forallb (fun e => negb (closes_skip e)) evs = true ->
  _pieces (run self evs) = _pieces self
  /\ (_skip_depth self <= _skip_depth (run self evs))%Z.
Proof.
  revert self; induction evs as [|e evs IH]; intros self Hd Hn.
  - simpl. split; [reflexivity | lia].
  - cbn [forallb] in Hn. apply andb_true_iff in Hn as [He Hn].
    apply negb_true_iff in He.
    destruct (handle_suppressed self e Hd He) as [Ep El].
    unfold run in *. cbn [fold_left].
    destruct (IH (handle self e)) as [Ep' El']; [lia | assumption |].
    rewrite Ep', Ep. split; [reflexivity | lia].
Qed.

Lemma text_after_unclosed_skip_is_lost_witness :
  let self := handle_starttag init "script" [] in
  let evs := [Data "var x;"; StartTag "p" []; Data "seen?"; EndTag "p"] in
  (0 < _skip_depth self)%Z
  /\ _pieces (run self evs) = [].
Proof.
  intros self evs. split; [reflexivity|].
  apply (proj1 (text_after_unclosed_skip_is_lost self evs
                  eq_refl eq_refl)).
Defined.

(** Inside a suppressed element, events that are no tags of a suppressed
    kind leave the parser as it is. *)
Lemma run_inside_skip (inner : list event) (self : t) :
  (0 < _skip_depth self)%Z ->
  forallb (fun e => negb (opens_skip e) && negb (closes_skip e)) inner
  = true ->
  run self inner = self.
Proof.
  revert self; induction inner as [|e inner IH]; intros self Hd Hn;
    [reflexivity|].
  cbn [forallb] in Hn. apply andb_true_iff in Hn as [He Hn].
  apply andb_true_iff in He as [Ho Hc].
  apply negb_true_iff in Ho. apply negb_true_iff in Hc.
  assert (E : handle self e = self).
  { destruct e as [tag attrs|tag|data];
      cbn [handle opens_skip closes_skip] in *.
    - unfold handle_starttag. now rewrite Ho.
    - unfold handle_endtag. now rewrite Hc.
    - unfold handle_data.
      destruct (Z.eqb_spec (_skip_depth self) 0); [lia | reflexivity]. }
  unfold run in *. cbn [fold_left]. rewrite E. now apply IH.
Qed.

(** X2: a suppressed element met at depth zero adds nothing: from its
    start tag to the next end tag of a suppressed kind, which need not be
    of the same kind, the text and the other tags in between leave the
    parser exactly as it was before the start tag. *)
Theorem skip_element_adds_nothing
        (self : t) (tag tag' : string) (attrs : attrs_t)
        (inner : list event) :
  _skip_depth self = 0%Z ->
  mem (lower tag) SKIP_TAGS = true ->
  mem (lower tag') SKIP_TAGS = true ->
  forallb (fun e => negb (opens_skip e) && negb (closes_skip e)) inner
  = true ->
  run self (StartTag tag attrs :: inner ++ [EndTag tag']) = self.
Proof.
  intros Hz Ht Ht' Hin.
  change (StartTag tag attrs :: inner ++ [EndTag tag'])%list
    with ([StartTag tag attrs] ++ inner ++ [EndTag tag'])%list.
  unfold run. rewrite !fold_left_app. cbn [fold_left handle].
  unfold handle_starttag at 1. rewrite Ht.
  set (inside := {| _pieces := _pieces self;
                    _skip_depth := _skip_depth self + 1 |}).
  assert (Hd : (0 < _skip_depth inside)%Z) by (simpl; lia).
  pose proof (run_inside_skip inner inside Hd Hin) as E.
  unfold run in E. rewrite E.
  unfold handle_endtag. rewrite Ht'. subst inside. cbn [_skip_depth _pieces].
  rewrite Hz. simpl. rewrite <- Hz. apply self_eta.
Qed.

Lemma skip_element_adds_nothing_witness :
  let self := handle_data init "Hello " in
  run self [StartTag "script" []; Data "ignored()"; StartTag "b" [];
            EndTag "STYLE"]
  = self.
Proof.
  intro self.
  apply (skip_element_adds_nothing self "script" "STYLE" []
           [Data "ignored()"; StartTag "b" []]); reflexivity.
Defined.

(** X3: as long as no start tag of a suppressed kind is met, every text
    event is collected, in document order, whatever other tags and
    unmatched end tags come in between; the reduced text of such a page
    is the collapse of its texts joined by single spaces. *)
Theorem visible_text_is_kept_in_order `{HtmlLib} :
  (forall (self : t) (evs : list event),
      _skip_depth self = 0%Z ->
      forallb (fun e => negb (opens_skip e)) evs = true ->
      run self evs
      = {| _pieces := (_pieces self ++ data_of evs)%list;
           _skip_depth := 0 |})
  /\ (forall html : string,
         forallb (fun e => negb (opens_skip e)) (feed_events html) = true ->
         extract_text html = collapse (join " " (data_of (feed_events html)))).
Proof.
  assert (Hrun : forall (evs : list event) (self : t),
             _skip_depth self = 0%Z ->
             forallb (fun e => negb (opens_skip e)) evs = true ->
             run self evs
             = {| _pieces := (_pieces self ++ data_of evs)%list;
                  _skip_depth := 0 |}).
  { induction evs as [|e evs IH]; intros self Hz Hn.
    - simpl. rewrite app_nil_r, <- Hz. symmetry. apply self_eta.
    - cbn [forallb] in Hn. apply andb_true_iff in Hn as [He Hn].
      apply negb_true_iff in He.
      unfold run in *. cbn [fold_left].
      destruct e as [tag attrs|tag|data]; cbn [handle data_of].
      + cbn [opens_skip] in He. unfold handle_starttag. rewrite He. now apply IH.
      + unfold handle_endtag. rewrite Hz, andb_false_r. now apply IH.
      + unfold handle_data. rewrite Hz. cbn [Z.eqb].
        rewrite IH; [|reflexivity|assumption].
        cbn [_pieces]. now rewrite <- app_assoc. }
  split; [intros self evs; apply Hrun|].
  intros html Hn. unfold extract_text, get_text.
  now rewrite (Hrun _ init eq_refl Hn).
Qed.

Lemma visible_text_is_kept_in_order_witness :
  let html := "<html><body><h1>Third</h1> <p>text   here</p></body></html>" in
  forallb (fun e => negb (opens_skip e)) (@feed_events Fixture.html_lib html)
  = true
  /\ @extract_text Fixture.html_lib html
     = collapse (join " " ["Third"; " "; "text   here"]).
Proof.
  intro html. split; [reflexivity|].
  apply (proj2 (@visible_text_is_kept_in_order Fixture.html_lib) html).
  reflexivity.
Defined.

(** X25: both parsers match tag names whatever their letter case: a tag
    does to each of them what the same tag in lower case does. *)
Theorem tag_case_is_ignored `{UrlLib}
        (tag : string) (attrs : attrs_t) :
  (forall self : t,
      handle_starttag self tag attrs = handle_starttag self (lower tag) attrs
      /\ handle_endtag self tag = handle_endtag self (lower tag))
  /\ (forall self : LinkExtractor.t,
         LinkExtractor.handle_starttag self tag attrs
         = LinkExtractor.handle_starttag self (lower tag) attrs).
Proof.
  split.
  - intro self. unfold handle_starttag, handle_endtag.
    now rewrite lower_idem.
  - intro self. unfold LinkExtractor.handle_starttag.
    now rewrite lower_idem.
Qed.

End Suppression.

(** ** The whitespace collapse of [get_text] *)

Section Collapse.

Import HTMLTextExtractor.

Lemma sub_ws_after_visible (s : string) :
  match s with
  | EmptyString => true
  | String d _ => negb (isspace d)
  end = true ->
  sub_ws true s = sub_ws false s.
Proof.
  destruct s as [|d r]; [reflexivity|]. simpl. intro Hd.
  apply negb_true_iff in Hd. now rewrite Hd.
Qed.

(** What the collapse leaves is well spaced: after a visible character
    (first statement) and from the start of the text (second). *)
Lemma rstrip_sub_ws_spaced (raw : string) :
  spaced_inside (rstrip_by isspace (sub_ws false raw)) = true
  /\ well_spaced (rstrip_by isspace (sub_ws true raw)) = true.
Proof.
  induction raw as [|c r [IA IB]]; [now split|].
  cbn [sub_ws]. destruct (isspace c) eqn:Ec.
  - split; [|exact IB].
    cbn [rstrip_by].
    destruct (rstrip_by isspace (sub_ws true r)) as [|d r'] eqn:E.
    + now rewrite isspace_space.
    + cbn [well_spaced] in IB. apply andb_true_iff in IB as [Hd Hr].
      cbn [spaced_inside]. rewrite isspace_space, Hd. cbn [andb Ascii.eqb].
      apply negb_true_iff in Hd. rewrite Hd. simpl. exact Hr.
  - rewrite (rstrip_by_keep _ _ _ Ec). split.
    + cbn [spaced_inside]. now rewrite Ec.
    + cbn [well_spaced]. now rewrite Ec.
Qed.

Lemma spaced_inside_fixed (s : string) :
  spaced_inside s = true ->
  sub_ws false s = s /\ rstrip_by isspace s = s.
Proof.
  induction s as [|c r IH]; [now split|].
  cbn [spaced_inside]. destruct (isspace c) eqn:Ec; intro Hs.
  - apply andb_true_iff in Hs as [Hs Hr].
    apply andb_true_iff in Hs as [Hc Hd].
    apply Ascii.eqb_eq in Hc; subst c.
    destruct (IH Hr) as [E1 E2]. cbn [sub_ws rstrip_by].
    destruct r as [|d r']; [discriminate|].
    rewrite Ec, (sub_ws_after_visible (String d r') Hd), E1, E2.
    now split.
  - destruct (IH Hs) as [E1 E2]. cbn [sub_ws]. rewrite Ec, E1.
    now rewrite (rstrip_by_keep _ _ _ Ec), E2.
Qed.

Lemma well_spaced_fixed (s : string) :
  well_spaced s = true -> collapse s = s.
Proof.
  rewrite collapse_as_rstrip. destruct s as [|c r]; [reflexivity|].
  cbn [well_spaced]. intro Hs. apply andb_true_iff in Hs as [Hc Hr].
  apply negb_true_iff in Hc. destruct (spaced_inside_fixed r Hr) as [E1 E2].
  cbn [sub_ws]. rewrite Hc, E1. now rewrite (rstrip_by_keep _ _ _ Hc), E2.
Qed.

Lemma collapse_well_spaced (raw : string) : well_spaced (collapse raw) = true.
Proof. rewrite collapse_as_rstrip. apply rstrip_sub_ws_spaced. Qed.

(** X4: the text [get_text] returns has no whitespace at either end and
    none inside but single spaces between visible characters, and the
    collapse changes a text exactly when the text is not of that form. *)
Theorem collapse_gives_well_spaced_text :
  (forall pieces : list string,
      well_spaced (get_text {| _pieces := pieces; _skip_depth := 0 |}) = true)
  /\ (forall raw : string, well_spaced (collapse raw) = true)
  /\ (forall s : string, well_spaced s = true <-> collapse s = s).
Proof.
  split; [intro pieces; apply collapse_well_spaced|].
  split; [exact collapse_well_spaced|].
  intro s. split; [apply well_spaced_fixed|].
  intro E. rewrite <- E. apply collapse_well_spaced.
Qed.

Lemma visible_sub_ws (s : string) (b : bool) :
  visible (sub_ws b s) = visible s.
Proof.
  revert b; induction s as [|c r IH]; intro b; [reflexivity|].
  cbn [sub_ws visible]. destruct (isspace c) eqn:Ec.
  - destruct b; [apply IH|].
    cbn [visible]. rewrite isspace_space. apply IH.
  - cbn [visible]. now rewrite Ec, IH.
Qed.

Lemma visible_rstrip (s : string) :
  visible (rstrip_by isspace s) = visible s.
Proof.
  induction s as [|c r IH]; [reflexivity|].
  cbn [rstrip_by visible].
  destruct (rstrip_by isspace r) as [|d r'] eqn:E.
  - rewrite <- IH. destruct (isspace c) eqn:Ec; cbn [visible];
      [reflexivity | now rewrite Ec].
  - cbn [visible] in *. now rewrite IH.
Qed.

Lemma visible_collapse (raw : string) : visible (collapse raw) = visible raw.
Proof.
  rewrite collapse_as_rstrip, visible_rstrip. apply visible_sub_ws.
Qed.

(** X5: the collapse only touches whitespace: the visible characters of
    the collapsed text are those of the text, in the same order. *)
Theorem collapse_keeps_visible_characters :
  (forall raw : string, visible (collapse raw) = visible raw)
  /\ (forall pieces : list string,
         visible (get_text {| _pieces := pieces; _skip_depth := 0 |})
         = visible (join " " pieces)).
Proof.
  split; [exact visible_collapse|].
  intro pieces. apply visible_collapse.
Qed.



End Collapse.

(** ** The link classifier: what is in the list *)

Section Listed.
Context `{UrlLib}.

Import LinkExtractor.

(** A link of the list was there before or is the canonical URL of an
    anchor of the events that passes the filters. *)
Lemma run_sound (evs : list event) (self : t) (u : string) :
  In u (links (run self evs)) ->
  In u (links self)
  \/ exists tag attrs href,
       In (StartTag tag attrs) evs
       /\ String.eqb (lower tag) "a" = true
       /\ attrs_get attrs "href" = Some href
       /\ passes_filters self href = true
       /\ u = canonical (base_url self) href.
Proof.
  revert self; induction evs as [|e evs IH]; intros self Hu; [now left|].
  unfold run in *. cbn [fold_left] in Hu.
  destruct (handle_frame self e) as (Eu & Ed & Eb).
  destruct (IH _ Hu) as [Hin|(tag & attrs & href & Hi & Et & Ea & Ep & Ec)].
  - destruct e as [tag attrs| |]; cbn [handle] in Hin; try (now left).
    rewrite handle_starttag_spec in Hin.
    destruct (attrs_get attrs "href") as [href|] eqn:Ea; [|now left].
    destruct (String.eqb (lower tag) "a") eqn:Et; cbn [andb] in Hin;
      [|now left].
    destruct (passes_filters self href) eqn:Ep; cbn [andb] in Hin;
      [|now left].
    destruct (negb (mem (canonical (base_url self) href) (links self)));
      [|now left].
    cbn [links] in Hin. apply in_app_or in Hin as [Hin|[<-|[]]]; [now left|].
    right. exists tag, attrs, href. repeat split; auto. now left.
  - right. exists tag, attrs, href. repeat split; auto.
    + now right.
    + now rewrite <- (passes_filters_frame self (handle self e)).
    + now rewrite <- Eu.
Qed.

(** An anchor of the events that passes the filters has its canonical
    URL in the list. *)
Lemma run_complete (evs : list event) (self : t)
      (tag : string) (attrs : attrs_t) (href : string) :
  In (StartTag tag attrs) evs ->
  String.eqb (lower tag) "a" = true ->
  attrs_get attrs "href" = Some href ->
  passes_filters self href = true ->
  In (canonical (base_url self) href) (links (run self evs)).
Proof.
  intros Hi Et Ea Ep. apply in_split in Hi as (l1 & l2 & ->).
  change (l1 ++ StartTag tag attrs :: l2)%list
    with (l1 ++ [StartTag tag attrs] ++ l2)%list.
  rewrite !run_app.
  destruct (run_links l2 (run (run self l1) [StartTag tag attrs]))
    as (added & E & _ & _).
  rewrite E. apply in_or_app. left.
  destruct (run_frame l1 self) as (Eu & Ed & Eb).
  rewrite <- Eu.
  apply (accepted_anchor_listed (run self l1)); try assumption.
  now rewrite (passes_filters_frame self (run self l1)).
Qed.

(** X7: the links [extract_links] returns are exactly the canonical URLs
    of the anchors of the page whose href passes the filters of the
    classifier: nothing else is listed and no such anchor is left out. *)
Theorem links_are_the_accepted_anchors `{HtmlLib}
        (html url : string) (u : string) :
  In u (extract_links html url)
  <-> exists tag attrs href,
        In (StartTag tag attrs) (feed_events html)
        /\ String.eqb (lower tag) "a" = true
        /\ attrs_get attrs "href" = Some href
        /\ passes_filters (init url) href = true
        /\ u = canonical url href.
Proof.
  unfold extract_links. split.
  - intro Hu. destruct (run_sound _ _ _ Hu) as [[]|Hx]. exact Hx.
  - intros (tag & attrs & href & Hi & Et & Ea & Ep & ->).
    apply (run_complete _ (init url) tag attrs href); assumption.
Qed.

Lemma existsb_mem_false (ignored segs : list string) :
  existsb (fun s => mem s segs) ignored = false ->
  forall seg, In seg segs -> mem seg ignored = false.
Proof.
  intros He seg Hs. destruct (mem seg ignored) eqn:Em; [|reflexivity].
  apply mem_In in Em.
  assert (Ht : existsb (fun s => mem s segs) ignored = true).
  { apply existsb_exists. exists seg. split; [assumption|].
    now apply mem_In. }
  congruence.
Qed.

(** X8: every link [extract_links] returns is on the host of the base
    URL, letter case apart, lies under the path prefix without being the
    prefix, has at least three non-empty path segments, and none of its
    segments is, in lower case, one of the ignored ones. *)
Theorem every_link_meets_the_article_rules `{HtmlLib}
        (html url : string) (u : string) :
  In u (extract_links html url) ->
  let parsed := urlparse u in
  let segments := filter nonempty (split "/" (path parsed)) in
  lower (netloc parsed) = lower (netloc (urlparse url))
  /\ startswith (rstrip_slash (path parsed) ++ "/")
                (base_path (init url)) = true
  /\ rstrip_slash (path parsed) ++ "/" <> base_path (init url)
  /\ (3 <= length segments)%nat
  /\ (forall seg, In seg segments ->
                  mem (lower seg) IGNORE_PATH_SEGMENTS = false).
Proof.
  intros Hu parsed segments.
  unfold extract_links in Hu.
  destruct (run_sound _ _ _ Hu)
    as [[]|(tag & attrs & href & _ & _ & _ & Ep & ->)].
  unfold passes_filters in Ep. apply andb_true_iff in Ep as [_ Ha].
  change (base_url (init url)) with url in Ha.
  subst parsed segments. unfold _is_article_link in Ha.
  set (full := canonical url href) in *.
  destruct (String.eqb_spec (lower (netloc (urlparse full)))
                            (base_domain (init url))) as [En|];
    [|discriminate]. cbn [negb] in Ha.
  destruct (startswith (rstrip_slash (path (urlparse full)) ++ "/")
                       (base_path (init url))) eqn:Es;
    [|discriminate]. cbn [negb orb] in Ha.
  destruct (String.eqb_spec (rstrip_slash (path (urlparse full)) ++ "/")
                            (base_path (init url))) as [|Ne];
    [discriminate|].
  destruct (Nat.ltb_spec
              (length (filter nonempty (split "/" (path (urlparse full)))))
              3) as [|Hl]; [discriminate|].
  destruct (existsb _ IGNORE_PATH_SEGMENTS) eqn:Ei; [discriminate|].
  repeat split; auto.
  intros seg Hs.
  apply (existsb_mem_false _ _ Ei). now apply in_map.
Qed.

Lemma hd_split_without_sep (sep : ascii) (s : string) :
  has_char sep (hd EmptyString (split sep s)) = false.
Proof.
  induction s as [|c r IH]; [reflexivity|].
  cbn [split]. destruct (Ascii.eqb c sep) eqn:Ec; [reflexivity|].
  pose proof (split_not_nil sep r) as Hn.
  destruct (split sep r) as [|h t]; [contradiction|].
  cbn [hd] in *. unfold has_char in *. cbn [list_ascii_of_string existsb].
  rewrite IH, orb_false_r. now rewrite Ascii.eqb_sym.
Qed.

(** X9: no link [extract_links] returns holds a [#]: the fragment of the
    href is cut before the link is compared and listed. *)
Theorem links_have_no_fragment `{HtmlLib}
        (html url : string) (u : string) :
  In u (extract_links html url) -> has_char "#" u = false.
Proof.
  intro Hu. unfold extract_links in Hu.
  destruct (run_sound _ _ _ Hu)
    as [[]|(tag & attrs & href & _ & _ & _ & _ & ->)].
  apply hd_split_without_sep.
Qed.

(** X10: feeding more markup never removes or moves a link already
    listed: the list after more events is the list before followed by the
    new links, and it holds no link twice. *)
Theorem links_only_grow (self : t) (evs1 evs2 : list event) :
  NoDup (links self) ->
  NoDup (links (run self (evs1 ++ evs2)))
  /\ exists added,
       links (run self (evs1 ++ evs2))
       = (links (run self evs1) ++ added)%list
       /\ forall u, In u added -> ~ In u (links (run self evs1)).
Proof.
  intro Hd. split.
  - destruct (run_links (evs1 ++ evs2) self) as (a & E & D & _).
    rewrite E. now apply D.
  - rewrite run_app.
    destruct (run_links evs2 (run self evs1)) as (a & E & _ & N).
    exists a. now split.
Qed.

(** X11: an href that starts with [mailto:], [tel:], [javascript:] or [#]
    is skipped whatever it would resolve to: the parser stays as it
    is. *)
Theorem non_navigable_href_is_skipped
        (self : t) (tag : string) (attrs : attrs_t) (p rest : string) :
  In p IGNORE_PREFIXES ->
  attrs_get attrs "href" = Some (p ++ rest) ->
  handle_starttag self tag attrs = self.
Proof.
  intros Hp Ea. unfold handle_starttag. rewrite Ea.
  destruct (negb (String.eqb (lower tag) "a")); [reflexivity|].
  destruct (negb (nonempty (p ++ rest))); [reflexivity|].
  assert (Ht : existsb (fun q => startswith (p ++ rest) q) IGNORE_PREFIXES
               = true).
  { apply existsb_exists. exists p. split; [assumption|].
    apply startswith_app. }
  now rewrite Ht.
Qed.

End Listed.

Lemma links_have_no_fragment_witness :
  let u := "https://example.com/media-centre/news-releases/2024/story-two" in
  In u (@extract_links Fixture.html_lib Fixture.url_lib
          Fixture.news_html Fixture.news_url)
  /\ has_char "#" u = false.
Proof.
  intro u.
  assert (Hu : In u (@extract_links Fixture.html_lib Fixture.url_lib
                       Fixture.news_html Fixture.news_url)).
  { vm_compute. right. left. reflexivity. }
  split; [exact Hu|].
  apply (@links_have_no_fragment Fixture.url_lib Fixture.html_lib
           Fixture.news_html Fixture.news_url u Hu).
Defined.

Lemma every_link_meets_the_article_rules_witness :
  let u := "https://example.com/media-centre/news-releases/2024/story-one" in
  In u (@extract_links Fixture.html_lib Fixture.url_lib
          Fixture.news_html Fixture.news_url)
  /\ (3 <= length (filter nonempty
                     (split "/" (path (@urlparse Fixture.url_lib u)))))%nat.
Proof.
  intro u.
  assert (Hu : In u (@extract_links Fixture.html_lib Fixture.url_lib
                       Fixture.news_html Fixture.news_url)).
  { vm_compute. left. reflexivity. }
  split; [exact Hu|].
  apply (@every_link_meets_the_article_rules Fixture.url_lib
           Fixture.html_lib Fixture.news_html Fixture.news_url u Hu).
Defined.

Lemma links_only_grow_witness :
  let self := @LinkExtractor.init Fixture.url_lib Fixture.news_url in
  let evs := @feed_events Fixture.html_lib Fixture.news_html in
  NoDup (LinkExtractor.links self)
  /\ NoDup (LinkExtractor.links
              (@LinkExtractor.run Fixture.url_lib self (evs ++ evs))).
Proof.
  intros self evs.
  assert (Hd : NoDup (LinkExtractor.links self)) by constructor.
  split; [exact Hd|].
  apply (proj1 (@links_only_grow Fixture.url_lib self evs evs Hd)).
Defined.

Lemma non_navigable_href_is_skipped_witness :
  let self := @LinkExtractor.init Fixture.url_lib Fixture.news_url in
  In "#" LinkExtractor.IGNORE_PREFIXES
  /\ @LinkExtractor.handle_starttag Fixture.url_lib self "a"
       [("href", Some "#section2")] = self.
Proof.
  intro self.
  assert (Hp : In "#" LinkExtractor.IGNORE_PREFIXES)
    by (right; right; right; left; reflexivity).
  split; [exact Hp|].
  apply (@non_navigable_href_is_skipped Fixture.url_lib self "a"
           [("href", Some "#section2")] "#" "section2" Hp).
  reflexivity.
Defined.

(** ** The classifier with its scope relaxed *)

Section Relaxed.
Context `{UrlLib}.

Import LinkExtractor.

Lemma rstrip_by_empty (q : ascii -> bool) (p : string) :
  rstrip_by q p = EmptyString ->
  match p with
  | EmptyString => True
  | String c r => q c = true /\ rstrip_by q r = EmptyString
  end.
Proof.
  destruct p as [|c r]; [trivial|]. cbn [rstrip_by].
  destruct (rstrip_by q r); [|discriminate].
  destruct (q c); [now split | discriminate].
Qed.

(** A path made of slashes only has no segment. *)
Lemma slashes_have_no_segment (p : string) :
  rstrip_slash p = EmptyString -> filter nonempty (split "/" p) = [].
Proof.
  unfold rstrip_slash. induction p as [|c r IH]; intro E; [reflexivity|].
  apply rstrip_by_empty in E as [Ec Er].
  cbn [split]. rewrite Ascii.eqb_sym, Ec. cbn [filter nonempty].
  now apply IH.
Qed.

Lemma base_path_init_rooted (url : string) :
  startswith (base_path (init url)) "/" = true.
Proof.
  unfold init. cbn [base_path].
  destruct (2 <=? length _)%nat; [reflexivity|].
  now destruct (filter nonempty _).
Qed.

Lemma is_article_link_relaxed (self : t) (full : string) :
  startswith (base_path self) "/" = true ->
  _is_article_link self full = true ->
  _is_article_link (set_base_path self "/") full = true.
Proof.
  intros Hr Ha. unfold _is_article_link in *.
  cbn [set_base_path base_domain base_path].
  destruct (negb (String.eqb (lower (netloc (urlparse full)))
                             (base_domain self))); [discriminate|].
  set (path' := rstrip_slash (path (urlparse full)) ++ "/") in *.
  destruct (startswith path' (base_path self)) eqn:Es; [|discriminate].
  cbn [negb orb] in Ha.
  destruct (String.eqb path' (base_path self)); [discriminate|].
  destruct (Nat.ltb_spec
              (length (filter nonempty (split "/" (path (urlparse full)))))
              3) as [|Hl]; [discriminate|].
  apply startswith_inv in Es as [rest Er].
  apply startswith_inv in Hr as [b Eb].
  assert (Hs : startswith path' "/" = true).
  { rewrite Er, Eb. reflexivity. }
  rewrite Hs. cbn [negb orb].
  destruct (String.eqb_spec path' "/") as [E1|]; [|exact Ha].
  exfalso. subst path'.
  assert (E0 : rstrip_slash (path (urlparse full)) = EmptyString).
  { destruct (rstrip_slash (path (urlparse full))) as [|c [|d x]];
      [reflexivity | discriminate | discriminate]. }
  rewrite (slashes_have_no_segment _ E0) in Hl. simpl in Hl. lia.
Qed.

Lemma passes_filters_relaxed (self self' : t) (href : string) :
  startswith (base_path self) "/" = true ->
  base_url self' = base_url self ->
  base_domain self' = base_domain self ->
  base_path self' = "/" ->
  passes_filters self href = true ->
  passes_filters self' href = true.
Proof.
  intros Hr Eu Ed Eb Ep.
  rewrite (passes_filters_frame (set_base_path self "/") self');
    try assumption.
  unfold passes_filters in *. cbn [set_base_path base_url].
  apply andb_true_iff in Ep as [Ep Ha]. rewrite Ep. cbn [andb].
  now apply is_article_link_relaxed.
Qed.

Lemma run_relaxed (evs : list event) (self self' : t) :
  startswith (base_path self) "/" = true ->
  base_url self' = base_url self ->
  base_domain self' = base_domain self ->
  base_path self' = "/" ->
  incl (links self) (links self') ->
  incl (links (run self evs)) (links (run self' evs)).
Proof.
  revert self self'; induction evs as [|e evs IH];
    intros self self' Hr Eu Ed Eb Hi; [exact Hi|].
  unfold run in *. cbn [fold_left].
  destruct (handle_frame self e) as (Fu & Fd & Fb).
  destruct (handle_frame self' e) as (Fu' & Fd' & Fb').
  apply IH; try congruence.
  destruct e as [tag attrs| |]; cbn [handle]; try exact Hi.
  rewrite !handle_starttag_spec.
  destruct (attrs_get attrs "href") as [href|]; [|exact Hi].
  destruct (String.eqb (lower tag) "a"); cbn [andb]; [|exact Hi].
  destruct (passes_filters self href) eqn:Ep; cbn [andb].
  - rewrite (passes_filters_relaxed self self' href Hr Eu Ed Eb Ep).
    cbn [andb]. rewrite Eu.
    destruct (mem (canonical (base_url self) href) (links self)) eqn:Em;
      destruct (mem (canonical (base_url self) href) (links self')) eqn:Em';
      cbn [negb links].
    + exact Hi.
    + intros x Hx. apply in_or_app. left. now apply Hi.
    + intros x Hx. apply in_app_or in Hx as [Hx|[<-|[]]];
        [now apply Hi | now apply mem_In].
    + intros x Hx. apply in_app_or in Hx as [Hx|[<-|[]]]; apply in_or_app;
        [left; now apply Hi | right; now left].
  - destruct (passes_filters self' href && _); cbn [links]; [|exact Hi].
    intros x Hx. apply in_or_app. left. now apply Hi.
Qed.

(** X12: relaxing the scope to [/], as the debug mode does, loses no
    candidate: every link of [filtered_article_links] is also in
    [all_same_domain_links]. *)
Theorem relaxed_scope_keeps_every_candidate `{HtmlLib}
        (html url : string) (u : string) :
  In u (extract_links html url) ->
  In u (links (run (set_base_path (init url) "/") (feed_events html))).
Proof.
  unfold extract_links.
  apply (run_relaxed (feed_events html) (init url)
           (set_base_path (init url) "/")); try reflexivity.
  - apply base_path_init_rooted.
  - apply incl_refl.
Qed.

(** X13: of several [href] attributes of one tag the last decides, as in
    the dictionary built from the attributes: the tag is handled as if it
    had that one attribute only. *)
Theorem last_href_attribute_decides
        (earlier later : attrs_t) (v : option string) :
  ~ In "href" (map fst later) ->
  attrs_get (earlier ++ ("href", v) :: later)%list "href" = v
  /\ forall (self : t) (tag : string),
       handle_starttag self tag (earlier ++ ("href", v) :: later)%list
       = handle_starttag self tag [("href", v)].
Proof.
  intro Hn.
  assert (E : attrs_get (earlier ++ ("href", v) :: later)%list "href" = v).
  { unfold attrs_get. rewrite fold_left_app. cbn [fold_left fst snd].
    rewrite String.eqb_refl. now apply attrs_get_from. }
  split; [exact E|].
  intros self tag. unfold handle_starttag. rewrite E. reflexivity.
Qed.

(** X14: for a listing page at [/d1/../dn/page], with or without a
    closing slash and with at least one directory, the path prefix is the
    directory above the page, [/d1/../dn/]. *)
Theorem listing_prefix_is_parent_directory
        (url : string) (dirs : list string) (page : string) :
  Forall segment (dirs ++ [page]) ->
  dirs <> [] ->
  path (urlparse url) = "/" ++ join "/" (dirs ++ [page])
  \/ path (urlparse url) = "/" ++ join "/" (dirs ++ [page]) ++ "/" ->
  base_path (init url) = "/" ++ join "/" dirs ++ "/".
Proof.
  intros Hs Hd Ep. unfold init. cbn [base_path].
  destruct (path_segments (dirs ++ [page])) as [E1 E2];
    [now destruct dirs | assumption |].
  assert (E : filter nonempty (split "/" (path (urlparse url)))
              = (dirs ++ [page])%list)
    by (destruct Ep as [-> | ->]; assumption).
  rewrite E, removelast_last.
  destruct dirs as [|d dirs]; [contradiction|].
  destruct dirs; reflexivity.
Qed.

End Relaxed.

Lemma relaxed_scope_keeps_every_candidate_witness :
  let u := "https://example.com/blog/2024/05/first" in
  In u (@extract_links Fixture.html_lib Fixture.url_lib
          Fixture.blog_html Fixture.blog_url)
  /\ In u (LinkExtractor.links
             (@LinkExtractor.run Fixture.url_lib
                (LinkExtractor.set_base_path
                   (@LinkExtractor.init Fixture.url_lib Fixture.blog_url) "/")
                (@feed_events Fixture.html_lib Fixture.blog_html))).
Proof.
  intro u.
  assert (Hu : In u (@extract_links Fixture.html_lib Fixture.url_lib
                       Fixture.blog_html Fixture.blog_url)).
  { vm_compute. left. reflexivity. }
  split; [exact Hu|].
  apply (@relaxed_scope_keeps_every_candidate Fixture.url_lib
           Fixture.html_lib Fixture.blog_html Fixture.blog_url u Hu).
Defined.

Lemma last_href_attribute_decides_witness :
  let later := [("class", Some "more")] in
  ~ In "href" (map fst later)
  /\ attrs_get ([("href", Some EmptyString)]
                  ++ ("href", Some "/blog/2024/05/first") :: later)%list
       "href"
     = Some "/blog/2024/05/first".
Proof.
  intro later.
  assert (Hn : ~ In "href" (map fst later)).
  { simpl. intros [E|[]]. discriminate E. }
  split; [exact Hn|].
  apply (proj1 (@last_href_attribute_decides Fixture.url_lib
                  [("href", Some EmptyString)] later
                  (Some "/blog/2024/05/first") Hn)).
Defined.

Lemma listing_prefix_is_parent_directory_witness :
  let dirs := ["media-centre"] in
  let page := "news-releases" in
  Forall segment (dirs ++ [page])
  /\ LinkExtractor.base_path
       (@LinkExtractor.init Fixture.url_lib Fixture.news_url)
     = "/media-centre/".
Proof.
  intros dirs page.
  assert (Hs : Forall segment (dirs ++ [page])).
  { repeat constructor; discriminate. }
  split; [exact Hs|].
  apply (@listing_prefix_is_parent_directory Fixture.url_lib
           Fixture.news_url dirs page Hs).
  - discriminate.
  - right. reflexivity.
Defined.

(** ** The crawl: its exceptions and its records *)

Section CrawlRecords.
Context `{HtmlLib} `{UrlLib} `{HttpLib}.

Lemma scrape_articles_index_failure
      (url : string) (debug : bool) (w w1 : world) (exc : string) :
  fetch_html url true (snd (_new_session w)) = (inl exc, w1) ->
  scrape_articles url debug w = (inl exc, w1).
Proof.
  intro Ef. unfold scrape_articles, bind.
  change (_new_session w) with (inr tt : string + unit, snd (_new_session w)).
  cbn iota beta. now rewrite Ef.
Qed.

Lemma scrape_articles_returns
      (url : string) (debug : bool) (w w1 : world) (index_html : string) :
  fetch_html url true (snd (_new_session w)) = (inr index_html, w1) ->
  exists results w2, scrape_articles url debug w = (inr results, w2).
Proof.
  intro Ef. destruct debug.
  - unfold scrape_articles, bind.
    change (_new_session w)
      with (inr tt : string + unit, snd (_new_session w)).
    cbn iota beta. rewrite Ef. cbn iota beta. unfold ret. eauto.
  - rewrite (scrape_articles_normal url w w1 index_html Ef). eauto.
Qed.

Lemma records_of_shape (o : string * (string + string)) (r : json) :
  In r (records_of o) ->
  record_url r = Some (fst o)
  /\ records_of o = [r]
  /\ ((exists page,
          snd o = inr page
          /\ r = content_record (fst o) (extract_text page)
          /\ nonempty (extract_text page) = true)
      \/ exists exc, snd o = inl exc /\ r = error_record (fst o) exc).
Proof.
  unfold records_of. destruct o as [link [exc|page]]; cbn [fst snd].
  - intros [<-|[]]. repeat split. right. now exists exc.
  - destruct (nonempty (extract_text page)) eqn:En; [|contradiction].
    intros [<-|[]]. repeat split. left. now exists page.
Qed.

(** X16: in normal mode every record of the results is for one of the
    candidates the classifier gave, and is either a record with content
    or a record with an error, never both and nothing else. *)
Theorem every_record_belongs_to_a_candidate
        (url : string) (w w1 w2 : world) (index_html : string)
        (results : list json) :
  fetch_html url true (snd (_new_session w)) = (inr index_html, w1) ->
  scrape_articles url false w = (inr results, w2) ->
  forall r, In r results ->
    exists link,
      In link (extract_links index_html url)
      /\ record_url r = Some link
      /\ ((is_content_record r = true /\ is_error_record r = false)
          \/ (is_error_record r = true /\ is_content_record r = false)).
Proof.
  intros Ef Es r Hr.
  rewrite (scrape_articles_normal url w w1 index_html Ef) in Es.
  inversion Es as [[Er Ew]]. clear Es. rewrite <- Er in Hr.
  apply in_flat_map in Hr as (o & Ho & Hro).
  destruct (fetch_all_links (extract_links index_html url) w1) as [Em _].
  exists (fst o). split; [rewrite <- Em; now apply in_map|].
  destruct (records_of_shape o r Hro) as (Eu & _ & [(page & _ & -> & En)
                                                   |(exc & _ & ->)]).
  - split; [exact Eu|]. left.
    destruct (record_url_content (fst o) (extract_text page))
      as (_ & E1 & E2).
    now rewrite E1, E2.
  - split; [exact Eu|]. right.
    destruct (record_url_error (fst o) exc) as (_ & E1 & E2).
    now rewrite E1, E2.
Qed.

Lemma records_distinct (outs : list (string * (string + string))) :
  NoDup (map fst outs) ->
  NoDup (map record_url (flat_map records_of outs))
  /\ (length (flat_map records_of outs) <= length outs)%nat.
Proof.
  induction outs as [|o outs IH]; intro Hd; [split; [constructor | auto]|].
  cbn [map] in Hd. inversion Hd as [|? ? Hn Hd']; subst.
  destruct (IH Hd') as [In1 Il]. cbn [flat_map].
  destruct (records_of o) as [|r l] eqn:Eo; [cbn; split; [exact In1 | lia]|].
  assert (Hr : In r (records_of o)) by (rewrite Eo; now left).
  destruct (records_of_shape o r Hr) as (Eu & E1 & _).
  rewrite Eo in E1. inversion E1; subst l. cbn [app map length]. split.
  - constructor; [|exact In1].
    rewrite Eu. intro Hi. apply in_map_iff in Hi as (r' & Eu' & Hr').
    apply in_flat_map in Hr' as (o' & Ho' & Hro').
    rewrite (records_of_url _ _ Hro') in Eu'. inversion Eu' as [Ef].
    apply Hn. rewrite <- Ef. now apply in_map.
  - lia.
Qed.

(** X17: in normal mode no candidate has two records: the URLs of the
    records are pairwise distinct, and there are at most as many records
    as candidates. *)
Theorem at_most_one_record_per_candidate
        (url : string) (w w1 w2 : world) (index_html : string)
        (results : list json) :
  fetch_html url true (snd (_new_session w)) = (inr index_html, w1) ->
  scrape_articles url false w = (inr results, w2) ->
  NoDup (map record_url results)
  /\ (length results <= length (extract_links index_html url))%nat.
Proof.
  intros Ef Es.
  rewrite (scrape_articles_normal url w w1 index_html Ef) in Es.
  inversion Es as [[Er Ew]]. clear Es.
  destruct (fetch_all_links (extract_links index_html url) w1) as [Em _].
  destruct (records_distinct
              (fst (fetch_all (extract_links index_html url) w1)))
    as [Hn Hl].
  - rewrite Em. apply extract_links_NoDup.
  - split; [exact Hn|].
    rewrite <- Em at 2. now rewrite length_map.
Qed.

(** X18: the content of a record is never empty and is collapsed text:
    no whitespace at its ends, single spaces inside. *)
Theorem content_is_collapsed_text
        (url : string) (w w1 w2 : world) (index_html : string)
        (results : list json) (link content : string) :
  fetch_html url true (snd (_new_session w)) = (inr index_html, w1) ->
  scrape_articles url false w = (inr results, w2) ->
  In (content_record link content) results ->
  content <> EmptyString
  /\ well_spaced content = true
  /\ HTMLTextExtractor.collapse content = content.
Proof.
  intros Ef Es Hr.
  rewrite (scrape_articles_normal url w w1 index_html Ef) in Es.
  inversion Es as [[Er Ew]]. clear Es. rewrite <- Er in Hr.
  apply in_flat_map in Hr as (o & Ho & Hro).
  destruct (records_of_shape o _ Hro)
    as (_ & _ & [(page & _ & Ec & En)|(exc & _ & Ec)]);
    [|discriminate Ec].
  inversion Ec as [[El Ep]]. split; [|split].
  - intros E0. rewrite E0 in En. discriminate En.
  - unfold extract_text, HTMLTextExtractor.get_text.
    apply collapse_well_spaced.
  - apply extract_text_collapsed.
Qed.

(** X19: a crawl takes nothing from the session an earlier crawl left:
    it starts from a new session, so two states with the same requests
    behind them give the same crawl. *)
Theorem crawl_starts_from_a_new_session
        (url : string) (debug : bool) (w w' : world) :
  requests w = requests w' ->
  scrape_articles url debug w = scrape_articles url debug w'.
Proof.
  intro Er. unfold scrape_articles, bind.
  change (_new_session w)
    with (inr tt : string + unit,
          {| session := new_session; requests := requests w |}).
  change (_new_session w')
    with (inr tt : string + unit,
          {| session := new_session; requests := requests w' |}).
  now rewrite Er.
Qed.

End CrawlRecords.

Module OnSiteRecords.

Import Fixture.

Lemma news_crawl :
  @scrape_articles html_lib url_lib http_lib news_url false start
  = (inr news_results, after_news).
Proof. vm_compute. reflexivity. Qed.

Lemma news_index :
  @fetch_html http_lib news_url true (snd (@_new_session http_lib start))
  = (inr news_html, after_index news_url).
Proof. vm_compute. reflexivity. Qed.

Lemma blog_crawl :
  @scrape_articles html_lib url_lib http_lib blog_url false start
  = (inr blog_results, after_blog).
Proof. vm_compute. reflexivity. Qed.

Lemma blog_index :
  @fetch_html http_lib blog_url true (snd (@_new_session http_lib start))
  = (inr blog_html, after_index blog_url).
Proof. vm_compute. reflexivity. Qed.

Lemma every_record_belongs_to_a_candidate_witness :
  exists link,
    In link (@extract_links html_lib url_lib news_html news_url)
    /\ record_url (content_record story_one "Hello World") = Some link.
Proof.
  destruct (@every_record_belongs_to_a_candidate html_lib url_lib http_lib
              news_url start (after_index news_url) after_news
              news_html news_results news_index news_crawl
              (content_record story_one "Hello World")
              (or_introl eq_refl))
    as (link & Hl & Hu & _).
  exists link. split; assumption.
Defined.

Lemma at_most_one_record_per_candidate_witness :
  NoDup (map record_url blog_results)
  /\ (length blog_results
      <= length (@extract_links html_lib url_lib blog_html blog_url))%nat.
Proof.
  apply (@at_most_one_record_per_candidate html_lib url_lib http_lib
           blog_url start (after_index blog_url) after_blog blog_html
           blog_results blog_index blog_crawl).
Defined.

Lemma content_is_collapsed_text_witness :
  well_spaced "Third text here" = true
  /\ HTMLTextExtractor.collapse "Third text here" = "Third text here".
Proof.
  destruct (@content_is_collapsed_text html_lib url_lib http_lib
              news_url start (after_index news_url) after_news
              news_html news_results story_three "Third text here"
              news_index news_crawl
              (or_intror (or_intror (or_introl eq_refl))))
    as (_ & Hw & Hc).
  split; assumption.
Defined.

Lemma crawl_starts_from_a_new_session_witness :
  @scrape_articles html_lib url_lib http_lib news_url false start
  = @scrape_articles html_lib url_lib http_lib news_url false
      (@mkWorld http_lib (99%nat : @Session http_lib) []).
Proof.
  apply (@crawl_starts_from_a_new_session html_lib url_lib http_lib
           news_url false start
           (@mkWorld http_lib (99%nat : @Session http_lib) [])).
  reflexivity.
Defined.

End OnSiteRecords.

(** ** The endpoint: every request *)

Section EndpointCases.
Context `{HtmlLib} `{UrlLib} `{HttpLib}.
Variable untyped : json -> bool -> M (list json).

Lemma scrape_with_query_url (request : Request) (w : world) (url : string) :
  args_get (args request) "url" = Some url ->
  nonempty url = true ->
  scrape untyped request w = answer_of (scrape_articles url (debug_flag request)) w.
Proof.
  intros Ea En. unfold scrape, answer_of. rewrite Ea. cbn [truthy].
  rewrite En. cbn [negb andb]. unfold bind at 1, ret at 1. cbn [truthy].
  rewrite En. cbn [negb]. unfold try_except, bind, ret.
  destruct (scrape_articles url (debug_flag request) w) as [[exc|results] w'];
    reflexivity.
Qed.

Lemma scrape_without_query_url (request : Request) (w : world) :
  has_query_url request = false ->
  scrape untyped request w
  = if is_json request
    then match get_json request with
         | JDict d =>
             if truthy (dict_get d "url")
             then answer_of (crawl_of untyped request (dict_get d "url")) w
             else (inr missing_url_answer, w)
         | JNull => (inl "'NoneType' object has no attribute 'get'", w)
         | JBool _ => (inl "'bool' object has no attribute 'get'", w)
         | JInt _ => (inl "'int' object has no attribute 'get'", w)
         | JStr _ => (inl "'str' object has no attribute 'get'", w)
         | JList _ => (inl "'list' object has no attribute 'get'", w)
         end
    else (inr missing_url_answer, w).
Proof.
  unfold has_query_url. intro Hq. unfold scrape.
  assert (Et : truthy (match args_get (args request) "url" with
                       | Some s => JStr s
                       | None => JNull
                       end) = false).
  { destruct (args_get (args request) "url"); [exact Hq | reflexivity]. }
  rewrite Et. cbn [negb andb].
  destruct (is_json request).
  - destruct (get_json request) as [| | | |l|d];
      try reflexivity.
    unfold json_get, bind at 1, ret at 1.
    destruct (truthy (dict_get d "url")) eqn:Ed; cbn [negb]; [|reflexivity].
    unfold try_except, bind, ret, answer_of, crawl_of.
    destruct (dict_get d "url");
      match goal with
      | |- context [match ?c w with _ => _ end] =>
          destruct (c w) as [[exc|results] w']; reflexivity
      end.
  - unfold bind at 1, ret at 1. rewrite Et. reflexivity.
Qed.

Lemma answer_of_codes (c : M (list json)) (w w' : world)
      (body : json) (code : Z) :
  answer_of c w = (inr (body, code), w') ->
  (code = 200%Z /\ exists results, body = JList results)
  \/ (code = 500%Z /\ exists exc, body = JDict [("error", JStr exc)]).
Proof.
  unfold answer_of. destruct (c w) as [[exc|results] w0]; intro E;
    inversion E; subst; [right | left]; split; eauto.
Qed.

Lemma answer_of_returns (c : M (list json)) (w : world) :
  exists body code w', answer_of c w = (inr (body, code), w').
Proof.
  unfold answer_of. destruct (c w) as [[exc|results] w0]; eauto.
Qed.

(** X20: a [url] in the query string takes precedence: the body of the
    request is not read, whatever it announces and holds, and the request
    is answered with 200 and the results or with 500 and a message. *)
Theorem query_url_takes_precedence (request : Request) (w : world) :
  has_query_url request = true ->
  (forall (announced : bool) (parsed : json),
      scrape untyped (with_body request announced parsed) w
      = scrape untyped request w)
  /\ exists body code w',
       scrape untyped request w = (inr (body, code), w')
       /\ ((code = 200%Z /\ exists results, body = JList results)
           \/ (code = 500%Z
               /\ exists exc, body = JDict [("error", JStr exc)])).
Proof.
  unfold has_query_url. intro Hq.
  destruct (args_get (args request) "url") as [url|] eqn:Ea; [|discriminate].
  split.
  - intros announced parsed.
    rewrite (scrape_with_query_url request w url Ea Hq).
    now rewrite (scrape_with_query_url (with_body request announced parsed)
                   w url Ea Hq).
  - rewrite (scrape_with_query_url request w url Ea Hq).
    destruct (answer_of_returns
                (scrape_articles url (debug_flag request)) w)
      as (body & code & w' & E).
    exists body, code, w'. split; [exact E|].
    exact (answer_of_codes _ _ _ _ _ E).
Qed.

(** X21: a [url] given as a string in a JSON object body, when the query
    string gives none, is used exactly as if it had been given in the
    query string. *)
Theorem body_url_is_used_like_a_query_url
        (request : Request) (w : world)
        (d : list (string * json)) (url : string) :
  has_query_url request = false ->
  is_json request = true ->
  get_json request = JDict d ->
  dict_get d "url" = JStr url ->
  nonempty url = true ->
  scrape untyped request w
  = scrape untyped (with_query_url request url) w.
Proof.
  intros Hq Ej Eb Ed En.
  rewrite (scrape_without_query_url request w Hq), Ej, Eb, Ed.
  cbn [truthy]. rewrite En.
  rewrite (scrape_with_query_url (with_query_url request url) w url);
    [reflexivity | reflexivity | exact En].
Qed.

(** X22: a request that gives no [url], neither in the query string nor
    in a JSON object body, and one whose body is not announced as JSON,
    is answered with 400 and the message, and no page is requested. *)
Theorem missing_url_is_answered_400 (request : Request) (w : world) :
  has_query_url request = false ->
  is_json request = false
  \/ (exists d, get_json request = JDict d
                /\ truthy (dict_get d "url") = false) ->
  scrape untyped request w = (inr missing_url_answer, w).
Proof.
  intros Hq Hb. rewrite (scrape_without_query_url request w Hq).
  destruct Hb as [-> | (d & -> & ->)]; [reflexivity|].
  now destruct (is_json request).
Qed.

(** X23: whenever the view function returns, the status is 200 with the
    list of results, 400 with the message of the missing URL, or 500 with
    a message. *)
Theorem answers_are_200_400_or_500
        (request : Request) (w w' : world) (body : json) (code : Z) :
  scrape untyped request w = (inr (body, code), w') ->
  (code = 200%Z /\ exists results, body = JList results)
  \/ (code = 400%Z /\ (body, code) = missing_url_answer /\ w' = w)
  \/ (code = 500%Z /\ exists exc, body = JDict [("error", JStr exc)]).
Proof.
  destruct (has_query_url request) eqn:Hq.
  - unfold has_query_url in Hq.
    destruct (args_get (args request) "url") as [url|] eqn:Ea;
      [|discriminate].
    rewrite (scrape_with_query_url request w url Ea Hq). intro E.
    destruct (answer_of_codes _ _ _ _ _ E) as [H2|H5]; auto.
  - rewrite (scrape_without_query_url request w Hq).
    assert (Hm : (inr missing_url_answer, w)
                 = (inr (body, code) : string + json * Z, w') ->
                 code = 400%Z /\ (body, code) = missing_url_answer /\ w' = w).
    { intro E. inversion E; subst. repeat split. }
    destruct (is_json request); [|intro E; right; left; now apply Hm].
    destruct (get_json request) as [| | | |l|d]; try discriminate.
    destruct (truthy (dict_get d "url"));
      [|intro E; right; left; now apply Hm].
    intro E. destruct (answer_of_codes _ _ _ _ _ E) as [H2|H5]; auto.
Qed.

(** X24: an exception leaves the view function exactly when the query
    string gives no [url], the body is announced as JSON and what
    [get_json] returns is not an object; nothing is requested then. *)
Theorem unhandled_only_for_a_body_that_is_no_object
        (request : Request) (w : world) :
  (exists exc w', scrape untyped request w = (inl exc, w'))
  <-> (has_query_url request = false
       /\ is_json request = true
       /\ forall d, get_json request <> JDict d).
Proof.
  destruct (has_query_url request) eqn:Hq.
  - unfold has_query_url in Hq.
    destruct (args_get (args request) "url") as [url|] eqn:Ea;
      [|discriminate].
    rewrite (scrape_with_query_url request w url Ea Hq).
    destruct (answer_of_returns
                (scrape_articles url (debug_flag request)) w)
      as (body & code & w' & ->).
    split; [intros (exc & w0 & E) | intros [E _]]; discriminate E.
  - rewrite (scrape_without_query_url request w Hq).
    destruct (is_json request).
    + destruct (get_json request) as [| | | |l|d].
      1-5: split; [intros _; repeat split; discriminate | eauto].
      split; [|intros (_ & _ & Hd); now destruct (Hd d)].
      intros (exc & w0 & E). exfalso.
      destruct (truthy (dict_get d "url")); [|discriminate E].
      destruct (answer_of_returns (crawl_of untyped request (dict_get d "url")) w)
        as (body & code & w' & E').
      rewrite E' in E. discriminate E.
    + split; [intros (exc & w0 & E) | intros (_ & E & _)]; discriminate E.
Qed.

End EndpointCases.

Module OnSiteRequests.

Import Fixture.

Lemma query_url_takes_precedence_witness :
  has_query_url get_down = true
  /\ @scrape html_lib url_lib http_lib no_untyped
       (with_body get_down true (JList [])) start
     = @scrape html_lib url_lib http_lib no_untyped get_down start.
Proof.
  split; [reflexivity|].
  apply (proj1 (@query_url_takes_precedence html_lib url_lib http_lib
                  no_untyped get_down start eq_refl)).
Defined.

Lemma body_url_is_used_like_a_query_url_witness :
  has_query_url post_down = false
  /\ @scrape html_lib url_lib http_lib no_untyped post_down start
     = @scrape html_lib url_lib http_lib no_untyped
         (with_query_url post_down "https://down/x") start.
Proof.
  split; [reflexivity|].
  apply (@body_url_is_used_like_a_query_url html_lib url_lib http_lib
           no_untyped post_down start
           [("url", JStr "https://down/x")] "https://down/x");
    reflexivity.
Defined.

Lemma missing_url_is_answered_400_witness :
  has_query_url {| args := [("debug", "1")]; is_json := false;
                   get_json := JNull |} = false
  /\ @scrape html_lib url_lib http_lib no_untyped
       {| args := [("debug", "1")]; is_json := false; get_json := JNull |}
       start
     = (inr missing_url_answer, start).
Proof.
  split; [reflexivity|].
  apply (@missing_url_is_answered_400 html_lib url_lib http_lib no_untyped
           {| args := [("debug", "1")]; is_json := false;
              get_json := JNull |} start eq_refl).
  now left.
Defined.

Lemma down_answer :
  @scrape html_lib url_lib http_lib no_untyped post_down start
  = (inr (JDict [("error", JStr "Failed to connect to down port 443")],
          500%Z),
     after_index "https://down/x").
Proof. vm_compute. reflexivity. Qed.

Lemma answers_are_200_400_or_500_witness :
  exists exc,
    JDict [("error", JStr "Failed to connect to down port 443")]
    = JDict [("error", JStr exc)].
Proof.
  destruct (@answers_are_200_400_or_500 html_lib url_lib http_lib
              no_untyped post_down start (after_index "https://down/x")
              (JDict [("error", JStr "Failed to connect to down port 443")])
              500%Z down_answer)
    as [[E _]|[[E _]|[_ Hx]]]; [discriminate E | discriminate E | exact Hx].
Defined.

End OnSiteRequests.

(** ** The classifier fed the same page again *)

Section FedAgain.
Context `{UrlLib}.

Import LinkExtractor.

(** Events whose accepted anchors are all listed leave the parser as it
    is. *)
Lemma run_all_listed (evs : list event) (self : t) :
  (forall tag attrs href,
      In (StartTag tag attrs) evs ->
      String.eqb (lower tag) "a" = true ->
      attrs_get attrs "href" = Some href ->
      passes_filters self href = true ->
      In (canonical (base_url self) href) (links self)) ->
  run self evs = self.
Proof.
  induction evs as [|e evs IH]; intro Hl; [reflexivity|].
  assert (E : handle self e = self).
  { destruct e as [tag attrs| |]; cbn [handle]; try reflexivity.
    rewrite handle_starttag_spec.
    destruct (attrs_get attrs "href") as [href|] eqn:Ea; [|reflexivity].
    destruct (String.eqb (lower tag) "a") eqn:Et; cbn [andb]; [|reflexivity].
    destruct (passes_filters self href) eqn:Ep; cbn [andb]; [|reflexivity].
    assert (Hi : In (canonical (base_url self) href) (links self))
      by (apply (Hl tag attrs href); auto; now left).
    apply mem_In in Hi. now rewrite Hi. }
  unfold run in *. cbn [fold_left]. rewrite E. apply IH.
  intros tag attrs href Hi. apply Hl. now right.
Qed.

(** X26: feeding the classifier the same markup a second time changes
    nothing: every anchor it would accept is listed already. *)
Theorem classify_again_adds_nothing (self : t) (evs : list event) :
  run self (evs ++ evs) = run self evs.
Proof.
  rewrite run_app. apply run_all_listed.
  intros tag attrs href Hi Et Ea Ep.
  destruct (run_frame evs self) as (Eu & Ed & Eb).
  rewrite Eu. apply (run_complete evs self tag attrs href); auto.
  now rewrite <- (passes_filters_frame self (run self evs)).
Qed.

End FedAgain.

(** ** The program with the exceptions of the libraries *)

Section ExcFacts.
Context `{HtmlLib} `{UrlLib} `{HttpLib} `{Raises}.

(** Whether a start tag raises depends on the base URL only, and when it
    does not, the parser it gives is that of
    [LinkExtractor.handle_starttag]. *)
Lemma handle_starttag_exc (self self' : LinkExtractor.t)
      (tag : string) (attrs : attrs_t) :
  LinkExtractor.base_url self' = LinkExtractor.base_url self ->
  match Exc.handle_starttag self tag attrs,
        Exc.handle_starttag self' tag attrs with
  | inl exc, inl exc' => exc = exc'
  | inr st, inr st' =>
      st = LinkExtractor.handle_starttag self tag attrs
      /\ st' = LinkExtractor.handle_starttag self' tag attrs
  | _, _ => False
  end.
Proof.
  intro Eu.
  unfold Exc.handle_starttag, LinkExtractor.handle_starttag. rewrite Eu.
  destruct (negb (String.eqb (lower tag) "a")); [now split|].
  destruct (attrs_get attrs "href") as [href|]; [|now split].
  destruct (negb (nonempty href)); [now split|].
  destruct (existsb (fun p => startswith href p)
                    LinkExtractor.IGNORE_PREFIXES); [now split|].
  unfold Exc.call_urljoin.
  destruct (urljoin_raises (LinkExtractor.base_url self) href);
    cbn [Exc.bindE]; [reflexivity|].
  unfold Exc.call_urlparse.
  destruct (urlparse_raises (urljoin (LinkExtractor.base_url self) href));
    cbn [Exc.bindE]; [reflexivity|].
  destruct (existsb _ LinkExtractor.IGNORE_EXTENSIONS); [now split|].
  destruct (mem (scheme (urlparse (urljoin (LinkExtractor.base_url self)
                                     href))) ["http"; "https"]);
    cbn [andb]; [|now split].
  unfold Exc._is_article_link, Exc.call_urlparse.
  destruct (urlparse_raises _); cbn [Exc.bindE]; [reflexivity|].
  destruct (LinkExtractor._is_article_link self _ && _);
    destruct (LinkExtractor._is_article_link self' _ && _); now split.
Qed.

Lemma run_exc (evs : list event) (self self' : LinkExtractor.t) :
  LinkExtractor.base_url self' = LinkExtractor.base_url self ->
  match Exc.run self evs, Exc.run self' evs with
  | inl exc, inl exc' => exc = exc'
  | inr st, inr st' =>
      st = LinkExtractor.run self evs /\ st' = LinkExtractor.run self' evs
  | _, _ => False
  end.
Proof.
  revert self self'; induction evs as [|e evs IH]; intros self self' Eu;
    [now split|].
  cbn [Exc.run]. unfold LinkExtractor.run. cbn [fold_left].
  assert (He : match Exc.handle self e, Exc.handle self' e with
               | inl exc, inl exc' => exc = exc'
               | inr st, inr st' =>
                   st = LinkExtractor.handle self e
                   /\ st' = LinkExtractor.handle self' e
               | _, _ => False
               end).
  { destruct e as [tag attrs| |]; cbn [Exc.handle LinkExtractor.handle];
      [now apply handle_starttag_exc | now split | now split]. }
  destruct (Exc.handle self e) as [exc|st];
    destruct (Exc.handle self' e) as [exc'|st']; cbn [Exc.bindE];
    try contradiction; [exact He|].
  destruct He as [-> ->]. apply IH.
  destruct (handle_frame self e) as (-> & _).
  destruct (handle_frame self' e) as (-> & _). exact Eu.
Qed.

Lemma run_exc_returns (evs : list event) (self st : LinkExtractor.t) :
  Exc.run self evs = inr st -> st = LinkExtractor.run self evs.
Proof.
  intro E. pose proof (run_exc evs self self eq_refl) as Hr.
  rewrite E in Hr. now destruct Hr.
Qed.

(** What it means that the classifier returns on a page. *)
Lemma extract_links_exc_returns (html url : string) (found : list string) :
  Exc.extract_links html url = inr found ->
  urlparse_raises url = None
  /\ feed_raises html = None
  /\ Exc.run (LinkExtractor.init url) (feed_events html)
     = inr (LinkExtractor.run (LinkExtractor.init url) (feed_events html))
  /\ found = extract_links html url.
Proof.
  unfold Exc.extract_links, Exc.init, Exc.feed, Exc.call_urlparse,
    extract_links.
  destruct (urlparse_raises url); cbn [Exc.bindE]; [discriminate|].
  destruct (Exc.run (LinkExtractor.init url) (feed_events html))
    as [exc|st] eqn:Er; cbn [Exc.bindE]; [discriminate|].
  destruct (feed_raises html); [discriminate|].
  intro E. inversion E. rewrite (run_exc_returns _ _ _ Er). now repeat split.
Qed.

(** The second pass of the debug branch returns when the first did. *)
Lemma feed_root_returns (html url : string) (found : list string) :
  Exc.extract_links html url = inr found ->
  Exc.feed (LinkExtractor.set_base_path (LinkExtractor.init url) "/") html
  = inr (LinkExtractor.run (root_parser url) (feed_events html)).
Proof.
  intro E. destruct (extract_links_exc_returns _ _ _ E) as (_ & Ef & Er & _).
  unfold Exc.feed.
  pose proof (run_exc (feed_events html) (LinkExtractor.init url)
                (LinkExtractor.set_base_path (LinkExtractor.init url) "/")
                eq_refl) as Hr.
  rewrite Er in Hr.
  destruct (Exc.run (LinkExtractor.set_base_path (LinkExtractor.init url)
                       "/") (feed_events html)) as [exc|st];
    [contradiction|].
  destruct Hr as [_ ->]. cbn [Exc.bindE]. now rewrite Ef.
Qed.

Lemma scrape_one_exc_returns (link : string) (results : list json)
      (w : world) :
  exists results' w', Exc.scrape_one link results w = (inr results', w').
Proof.
  unfold Exc.scrape_one, try_except, bind, Exc.lift, ret.
  destruct (fetch_html link true w) as [[exc|page] w']; [eauto|].
  destruct (Exc.extract_text page) as [exc|content]; [eauto|].
  destruct (nonempty content); eauto.
Qed.

Lemma scrape_loop_exc_returns (article_links : list string) :
  forall (results : list json) (w : world),
  exists results' w',
    Exc.scrape_loop article_links results w = (inr results', w').
Proof.
  induction article_links as [|link rest IH]; intros results w.
  - cbn. unfold ret. eauto.
  - cbn [Exc.scrape_loop]. unfold bind at 1.
    destruct (scrape_one_exc_returns link results w) as (r1 & w1 & ->).
    apply IH.
Qed.

Lemma scrape_articles_exc_debug
      (url : string) (w w1 : world) (index_html : string)
      (found : list string) :
  fetch_html url true (snd (_new_session w)) = (inr index_html, w1) ->
  Exc.extract_links index_html url = inr found ->
  Exc.scrape_articles url true w
  = (inr [JDict
            [("debug", JBool true);
             ("html_length", JInt (Z.of_nat (String.length index_html)));
             ("base_path_used",
              JStr (LinkExtractor.base_path (LinkExtractor.init url)));
             ("filtered_article_links", JList (map JStr found));
             ("all_same_domain_links",
              JList (map JStr
                       (LinkExtractor.links
                          (LinkExtractor.run (root_parser url)
                             (feed_events index_html)))))]],
     w1).
Proof.
  intros Ef El.
  destruct (extract_links_exc_returns _ _ _ El) as (Eu & _ & _ & _).
  unfold Exc.scrape_articles, bind.
  change (_new_session w) with (inr tt : string + unit, snd (_new_session w)).
  cbn iota beta. rewrite Ef. cbn iota beta.
  unfold Exc.lift at 1. rewrite El. cbn iota beta.
  unfold Exc.lift at 1, Exc.call_urlparse. rewrite Eu. cbn iota beta.
  unfold Exc.lift at 1, Exc.init, Exc.call_urlparse. rewrite Eu.
  cbn [Exc.bindE]. cbn iota beta.
  unfold Exc.lift. rewrite (feed_root_returns _ _ _ El). reflexivity.
Qed.

End ExcFacts.

Section ExcCrawl.
Context `{HtmlLib} `{UrlLib} `{HttpLib} `{Raises}.

(** C4, as amended: in debug mode, once the index page is fetched and the
    classifier has returned on it, no other request is made, and the
    result is one record with the length of the index page, the path
    prefix of the classifier, the list of candidates, and the list the
    classifier gives with its prefix set to [/].  That list holds exactly
    the canonical URLs of the anchors that pass the filters under the
    prefix [/], and so every candidate. *)
Theorem debug_crawl_reports_when_classified
        (url : string) (w w1 : world) (index_html : string)
        (found : list string) :
  fetch_html url true (snd (_new_session w)) = (inr index_html, w1) ->
  Exc.extract_links index_html url = inr found ->
  let relaxed :=
    LinkExtractor.links
      (LinkExtractor.run (root_parser url) (feed_events index_html)) in
  Exc.scrape_articles url true w
  = (inr [JDict
            [("debug", JBool true);
             ("html_length", JInt (Z.of_nat (String.length index_html)));
             ("base_path_used",
              JStr (LinkExtractor.base_path (LinkExtractor.init url)));
             ("filtered_article_links", JList (map JStr found));
             ("all_same_domain_links", JList (map JStr relaxed))]],
     w1)
  /\ requests w1 = (requests w ++ [url])%list
  /\ found = extract_links index_html url
  /\ (forall u,
         In u relaxed
         <-> exists tag attrs href,
               In (StartTag tag attrs) (feed_events index_html)
               /\ String.eqb (lower tag) "a" = true
               /\ attrs_get attrs "href" = Some href
               /\ passes_filters (root_parser url) href = true
               /\ u = canonical url href)
  /\ incl found relaxed.
Proof.
  intros Ef El relaxed.
  destruct (extract_links_exc_returns _ _ _ El) as (_ & _ & _ & Efound).
  split; [now apply scrape_articles_exc_debug|]. split; [|split; [|split]].
  - pose proof (fetch_html_requests url true (snd (_new_session w))) as Er.
    now rewrite Ef in Er.
  - exact Efound.
  - intro u. subst relaxed. split.
    + intro Hu. destruct (run_sound _ _ _ Hu) as [[]|Hx]. exact Hx.
    + intros (tag & attrs & href & Hi & Et & Ea & Ep & ->).
      apply (run_complete _ (root_parser url) tag attrs href); assumption.
  - intros u Hu. rewrite Efound in Hu.
    apply (run_relaxed (feed_events index_html) (LinkExtractor.init url)
             (root_parser url)); try reflexivity.
    + apply base_path_init_rooted.
    + apply incl_refl.
    + exact Hu.
Qed.

(** X15: a crawl, in either mode, raises exactly when the fetch of the
    index page raises or the classifier raises on the index page, and
    then with that exception and after that one request; no fetch of a
    candidate and no page of a candidate makes the crawl raise. *)
Theorem crawl_raises_for_the_index_or_its_links
        (url : string) (debug : bool) (w w1 : world) (exc : string) :
  Exc.scrape_articles url debug w = (inl exc, w1)
  <-> fetch_html url true (snd (_new_session w)) = (inl exc, w1)
      \/ exists index_html,
           fetch_html url true (snd (_new_session w)) = (inr index_html, w1)
           /\ Exc.extract_links index_html url = inl exc.
Proof.
  destruct (fetch_html url true (snd (_new_session w)))
    as [[e|index_html] w'] eqn:Ef.
  - assert (Es : Exc.scrape_articles url debug w = (inl e, w')).
    { unfold Exc.scrape_articles, bind.
      change (_new_session w)
        with (inr tt : string + unit, snd (_new_session w)).
      cbn iota beta. now rewrite Ef. }
    rewrite Es. split.
    + intro E. left. inversion E. reflexivity.
    + intros [E|(index_html & E & _)]; inversion E. reflexivity.
  - destruct (Exc.extract_links index_html url) as [e|found] eqn:El.
    + assert (Es : Exc.scrape_articles url debug w = (inl e, w')).
      { unfold Exc.scrape_articles, bind.
        change (_new_session w)
          with (inr tt : string + unit, snd (_new_session w)).
        cbn iota beta. rewrite Ef. cbn iota beta.
        unfold Exc.lift at 1. now rewrite El. }
      rewrite Es. split.
      * intro E. right. exists index_html. inversion E. subst.
        split; [reflexivity | exact El].
      * intros [E|(html & E & El')]; [discriminate E|].
        inversion E. subst. rewrite El in El'. inversion El'. reflexivity.
    + assert (Es : exists results w2,
                 Exc.scrape_articles url debug w = (inr results, w2)).
      { destruct debug.
        - rewrite (scrape_articles_exc_debug url w w' index_html found Ef El).
          eauto.
        - unfold Exc.scrape_articles, bind.
          change (_new_session w)
            with (inr tt : string + unit, snd (_new_session w)).
          cbn iota beta. rewrite Ef. cbn iota beta.
          unfold Exc.lift at 1. rewrite El. cbn iota beta.
          apply scrape_loop_exc_returns. }
      destruct Es as (results & w2 & ->). split.
      * discriminate.
      * intros [E|(html & E & El')]; [discriminate E|].
        inversion E. subst. rewrite El in El'. discriminate El'.
Qed.


(** Where no library call raises, the crawl with exceptions is the crawl
    of [scrape_articles]. *)
Lemma scrape_one_without_exception (link : string) (results : list json)
      (w : world) :
  (forall html, feed_raises html = None) ->
  Exc.scrape_one link results w = scrape_one link results w.
Proof.
  intro Hf. unfold Exc.scrape_one, scrape_one, try_except, bind, Exc.lift.
  destruct (fetch_html link true w) as [[exc|page] w']; [reflexivity|].
  unfold Exc.extract_text. now rewrite Hf.
Qed.

Lemma scrape_loop_without_exception (article_links : list string) :
  (forall html, feed_raises html = None) ->
  forall (results : list json) (w : world),
    Exc.scrape_loop article_links results w
    = scrape_loop article_links results w.
Proof.
  intro Hf. induction article_links as [|link rest IH]; intros results w;
    [reflexivity|].
  cbn [Exc.scrape_loop scrape_loop]. unfold bind.
  rewrite (scrape_one_without_exception link results w Hf).
  destruct (scrape_one link results w) as [[exc|r] w']; [reflexivity|].
  apply IH.
Qed.

Lemma crawl_without_exception (url : string) (w : world) :
  (forall html, feed_raises html = None) ->
  (forall u, urlparse_raises u = None) ->
  (forall base u, urljoin_raises base u = None) ->
  Exc.scrape_articles url false w = scrape_articles url false w.
Proof.
  intros Hf Hp Hj.
  assert (Hh : forall evs self,
             Exc.run self evs = inr (LinkExtractor.run self evs)).
  { induction evs as [|e evs IH]; intro self; [reflexivity|].
    cbn [Exc.run]. unfold LinkExtractor.run. cbn [fold_left].
    assert (He : Exc.handle self e = inr (LinkExtractor.handle self e)).
    { destruct e as [tag attrs| |]; cbn [Exc.handle LinkExtractor.handle];
        try reflexivity.
      unfold Exc.handle_starttag, LinkExtractor.handle_starttag.
      destruct (negb (String.eqb (lower tag) "a")); [reflexivity|].
      destruct (attrs_get attrs "href") as [href|]; [|reflexivity].
      destruct (negb (nonempty href)); [reflexivity|].
      destruct (existsb (fun p => startswith href p)
                        LinkExtractor.IGNORE_PREFIXES); [reflexivity|].
      unfold Exc.call_urljoin, Exc.call_urlparse. rewrite Hj.
      cbn [Exc.bindE]. rewrite Hp. cbn [Exc.bindE].
      destruct (existsb _ LinkExtractor.IGNORE_EXTENSIONS); [reflexivity|].
      destruct (mem _ ["http"; "https"]); cbn [andb]; [|reflexivity].
      unfold Exc._is_article_link, Exc.call_urlparse. rewrite Hp.
      cbn [Exc.bindE]. now destruct (_ && _). }
    rewrite He. cbn [Exc.bindE]. apply IH. }
  assert (El : forall html,
             Exc.extract_links html url = inr (extract_links html url)).
  { intro html. unfold Exc.extract_links, Exc.init, Exc.feed,
      Exc.call_urlparse, extract_links.
    rewrite Hp. cbn [Exc.bindE]. rewrite Hh. cbn [Exc.bindE].
    now rewrite Hf. }
  unfold Exc.scrape_articles, scrape_articles, bind.
  destruct (_new_session w) as [[exc|[]] w0]; [reflexivity|].
  destruct (fetch_html url true w0) as [[exc|index_html] w1]; [reflexivity|].
  unfold Exc.lift. rewrite El.
  now apply scrape_loop_without_exception.
Qed.

End ExcCrawl.

Module OnSiteExc.

Import Fixture.

Lemma hub_index :
  @fetch_html http_lib hub_url true (snd (@_new_session http_lib start))
  = (inr hub_html, after_index hub_url).
Proof. vm_compute. reflexivity. Qed.

Lemma hub_links :
  @Exc.extract_links html_lib url_lib raises_lib hub_html hub_url
  = inr ["https://example.com/hub/news/2024/a"].
Proof. vm_compute. reflexivity. Qed.

Lemma debug_crawl_reports_when_classified_witness :
  @Exc.scrape_articles html_lib url_lib http_lib raises_lib hub_url true start
  = (inr [JDict
            [("debug", JBool true);
             ("html_length", JInt 89);
             ("base_path_used", JStr "/hub/");
             ("filtered_article_links",
              JList [JStr "https://example.com/hub/news/2024/a"]);
             ("all_same_domain_links",
              JList [JStr "https://example.com/hub/news/2024/a";
                     JStr "https://example.com/about/team/jane"])]],
     after_index hub_url).
Proof.
  apply (proj1 (@debug_crawl_reports_when_classified html_lib url_lib
                  http_lib raises_lib hub_url start (after_index hub_url)
                  hub_html ["https://example.com/hub/news/2024/a"]
                  hub_index hub_links)).
Defined.

(** C4, as stated, fails: the index page at [bad_url] is fetched, one of
    its anchors has an href on which [urljoin] raises, and the crawl in
    debug mode ends with that exception instead of a record. *)
Lemma debug_crawl_raises_on_malformed_href :
  @fetch_html http_lib bad_url true (snd (@_new_session http_lib start))
  = (inr bad_html, after_index bad_url)
  /\ @urljoin_raises raises_lib bad_url "http://[x/.."
     = Some "Invalid IPv6 URL"
  /\ @Exc.scrape_articles html_lib url_lib http_lib raises_lib
       bad_url true start
     = (inl "Invalid IPv6 URL", after_index bad_url)
  /\ forall records w',
       @Exc.scrape_articles html_lib url_lib http_lib raises_lib
         bad_url true start
       <> (inr records, w').
Proof.
  assert (E : @Exc.scrape_articles html_lib url_lib http_lib raises_lib
                bad_url true start
              = (inl "Invalid IPv6 URL", after_index bad_url))
    by (vm_compute; reflexivity).
  split; [vm_compute; reflexivity|]. split; [vm_compute; reflexivity|].
  split; [exact E|].
  intros records w'. rewrite E. discriminate.
Qed.



End OnSiteExc.
